(** * Todoist MCP server: tool registry, dispatch and upstream client

    A shallow embedding of [src/index.ts] (class [TodoistMCP]) and of
    [TodoistApiClient.ts] (class [TodoistClient]), with the properties
    of the tool filter, the handlers and the client stated and proved
    over it.

    Conventions.
    - JavaScript values are the inductive [value]; a number is an
      integer ([Z]), which covers every number the handlers test or
      print (limits, priorities, identifiers, HTTP statuses).
    - A JavaScript object is an association list in own-property order
      ([Object.entries] order); keys are unique.
    - Strings are byte strings, read as UTF-8.
    - [fetch], [crypto.randomUUID] and the body readers of a response are
      the environment [Env]; the handlers run in the monad [M], which
      threads a [State] of ghost logs (client calls, requests, raised
      failures) and propagates thrown values.
    - [console.log] / [console.error] only write to the worker's log and
      are left out. *)

From Stdlib Require Import ZArith String Ascii List Bool DecimalString Lia.
From stdpp Require Import gmap strings list fin_maps.
Import ListNotations.
Local Open Scope string_scope.
Local Open Scope Z_scope.

(** ** JavaScript values *)

Set Warnings "-register-all".

Inductive value : Type :=
| VUndefined
| VNull
| VBool (b : bool)
| VNum (n : Z)
| VStr (s : string)
| VArr (l : list value)
| VObj (l : list (string * value)).

(** [Record<string, unknown>]: an object given by its entries. *)
Abbreviation Obj := (list (string * value)).

Definition value_is_undefined (v : value) : bool :=
  match v with VUndefined => true | _ => false end.

(** ToBoolean: what [if (x)], [!x] and [x || y] test. *)
Definition truthy (v : value) : bool :=
  match v with
  | VUndefined | VNull => false
  | VBool b => b
  | VNum n => negb (n =? 0)
  | VStr s => negb (String.eqb s "")
  | VArr _ | VObj _ => true
  end.

(** [x === 'lit'] for a string literal. *)
Definition strict_eq_str (v : value) (lit : string) : bool :=
  match v with VStr s => String.eqb s lit | _ => false end.

(** ** Objects as ordered entry lists *)

Module Object.

Fixpoint get (o : Obj) (k : string) : value :=
  match o with
  | [] => VUndefined
  | (k', v) :: o' => if String.eqb k' k then v else get o' k
  end.

Fixpoint has (o : Obj) (k : string) : bool :=
  match o with
  | [] => false
  | (k', _) :: o' => String.eqb k' k || has o' k
  end.

(** [o.k = v]: overwrite in place, or add as the last property. *)
Fixpoint set (o : Obj) (k : string) (v : value) : Obj :=
  match o with
  | [] => [(k, v)]
  | (k', v') :: o' =>
      if String.eqb k' k then (k', v) :: o' else (k', v') :: set o' k v
  end.

(** [Object.entries(o)] *)
Definition entries (o : Obj) : list (string * value) := o.

End Object.

(** [if (c) o.k = v] *)
Definition assign_if (c : bool) (o : Obj) (k : string) (v : value) : Obj :=
  if c then Object.set o k v else o.

(** Property read [v.k] on a value that is neither [null] nor
    [undefined]; [k] is never a built-in property name in this program
    ([content], [description], [due], [date], [sync_status], a UUID), so
    a primitive or an array has no such property. *)
Definition prop (v : value) (k : string) : value :=
  match v with
  | VObj o => Object.get o k
  | _ => VUndefined
  end.

Definition nullish (v : value) : bool :=
  match v with VUndefined | VNull => true | _ => false end.

(** ** Strings: [String(x)], template literals, JSON text *)

Definition nl : string := String (ascii_of_nat 10) EmptyString.

Definition Number_toString (n : Z) : string :=
  NilZero.string_of_int (Z.to_int n).

Fixpoint join (sep : string) (l : list string) : string :=
  match l with
  | [] => ""
  | [x] => x
  | x :: l' => x +:+ sep +:+ join sep l'
  end.

(** ToString, as applied by [String(v)] and by [`${v}`]. *)
Fixpoint ToString (v : value) : string :=
  match v with
  | VUndefined => "undefined"
  | VNull => "null"
  | VBool true => "true"
  | VBool false => "false"
  | VNum n => Number_toString n
  | VStr s => s
  | VArr l =>
      join "," (map (fun x => if nullish x then "" else ToString x) l)
  | VObj _ => "[object Object]"
  end.

Definition hex_digit (upper : bool) (n : nat) : ascii :=
  if (n <? 10)%nat then ascii_of_nat (48 + n)
  else ascii_of_nat ((if upper then 55 else 87) + n).

Definition hex2 (upper : bool) (c : ascii) : string :=
  let n := nat_of_ascii c in
  String (hex_digit upper (n / 16)) (String (hex_digit upper (n mod 16)) "").

(** QuoteJSONString *)
Definition json_escape_char (c : ascii) : string :=
  let n := nat_of_ascii c in
  if (n =? 34)%nat then "\" +:+ String c ""
  else if (n =? 92)%nat then "\\"
  else if (n =? 8)%nat then "\b"
  else if (n =? 12)%nat then "\f"
  else if (n =? 10)%nat then "\n"
  else if (n =? 13)%nat then "\r"
  else if (n =? 9)%nat then "\t"
  else if (n <? 32)%nat then "\u00" +:+ hex2 false c
  else String c "".

Fixpoint json_escape (s : string) : string :=
  match s with
  | EmptyString => ""
  | String c s' => json_escape_char c +:+ json_escape s'
  end.

Definition dquote : string := String (ascii_of_nat 34) "".

Definition QuoteJSONString (s : string) : string :=
  dquote +:+ json_escape s +:+ dquote.

(** SerializeJSONProperty with the indentation [gap]; [None] is the
    result [undefined]. An [undefined] array element prints as [null],
    an [undefined] property is left out. *)
Fixpoint SerializeJSON (gap indent : string) (v : value) : option string :=
  match v with
  | VUndefined => None
  | VNull => Some "null"
  | VBool true => Some "true"
  | VBool false => Some "false"
  | VNum n => Some (Number_toString n)
  | VStr s => Some (QuoteJSONString s)
  | VArr l =>
      let stepback := indent in
      let indent := indent +:+ gap in
      let partial :=
        map (fun x => match SerializeJSON gap indent x with
                      | Some s => s
                      | None => "null"
                      end) l in
      Some (match partial with
            | [] => "[]"
            | _ =>
                if String.eqb gap "" then "[" +:+ join "," partial +:+ "]"
                else "[" +:+ nl +:+ indent
                     +:+ join ("," +:+ nl +:+ indent) partial
                     +:+ nl +:+ stepback +:+ "]"
            end)
  | VObj o =>
      let stepback := indent in
      let indent := indent +:+ gap in
      let partial :=
        flat_map (fun kv => match SerializeJSON gap indent (snd kv) with
                            | Some s =>
                                [QuoteJSONString (fst kv) +:+ ":"
                                 +:+ (if String.eqb gap "" then "" else " ")
                                 +:+ s]
                            | None => []
                            end) o in
      Some (match partial with
            | [] => "{}"
            | _ =>
                if String.eqb gap "" then "{" +:+ join "," partial +:+ "}"
                else "{" +:+ nl +:+ indent
                     +:+ join ("," +:+ nl +:+ indent) partial
                     +:+ nl +:+ stepback +:+ "}"
            end)
  end.

Fixpoint spaces (n : nat) : string :=
  match n with O => "" | S n' => " " +:+ spaces n' end.

(** [JSON.stringify(v, null, space)]; [JSON.stringify(v)] is [space = 0]. *)
Definition JSON_stringify (v : value) (space : nat) : option string :=
  SerializeJSON (spaces (Nat.min space 10)) "" v.

(** [`${x}`] for [x] the result of [JSON.stringify]. *)
Definition template_opt (o : option string) : string :=
  match o with Some s => s | None => "undefined" end.

(** ** URLSearchParams *)

Module URLSearchParams.

Definition t := list (string * string).

Definition new : t := [].

Definition append (q : t) (k v : string) : t := (q ++ [(k, v)])%list.

Definition unreserved (c : ascii) : bool :=
  let n := nat_of_ascii c in
  ((48 <=? n) && (n <=? 57) || (65 <=? n) && (n <=? 90)
   || (97 <=? n) && (n <=? 122)
   || (n =? 42) || (n =? 45) || (n =? 46) || (n =? 95))%nat.

(** application/x-www-form-urlencoded byte serializer *)
Definition encode_byte (c : ascii) : string :=
  if unreserved c then String c ""
  else if (nat_of_ascii c =? 32)%nat then "+"
  else "%" +:+ hex2 true c.

Fixpoint encode (s : string) : string :=
  match s with
  | EmptyString => ""
  | String c s' => encode_byte c +:+ encode s'
  end.

Definition toString (q : t) : string :=
  join "&" (map (fun kv => encode (fst kv) +:+ "=" +:+ encode (snd kv)) q).

End URLSearchParams.

Example stringify_pretty :
  JSON_stringify (VArr [VObj [("a", VNum 1); ("b", VUndefined); ("c", VStr "x")]; VArr []]) 2
  = Some ("[" +:+ nl +:+ "  {" +:+ nl +:+ "    " +:+ dquote +:+ "a" +:+ dquote +:+ ": 1,"
          +:+ nl +:+ "    " +:+ dquote +:+ "c" +:+ dquote +:+ ": " +:+ dquote +:+ "x" +:+ dquote
          +:+ nl +:+ "  }," +:+ nl +:+ "  []" +:+ nl +:+ "]").
Proof. reflexivity. Qed.

Example urlencode_sample :
  URLSearchParams.toString [("filter", "today & p1"); ("limit", Number_toString 10)]
  = "filter=today+%26+p1&limit=10".
Proof. reflexivity. Qed.

(** ** Failures, HTTP exchange, environment *)

(** What a [throw] or a rejected promise carries: an instance of [Error]
    (also [TypeError], [SyntaxError]) with its message, or any other
    value. *)
Inductive Thrown : Type :=
| JsError (message : string)
| NotAnError (v : value).

(** [error instanceof Error ? error.message : 'Unknown error occurred'] *)
Definition error_message (error : Thrown) : string :=
  match error with
  | JsError message => message
  | NotAnError _ => "Unknown error occurred"
  end.

Module Request.
Record t : Type := mk {
  url : string;
  method : string;
  headers : list (string * string);
  body : option string
}.
End Request.

(** A [Response]: [text] and [json] are the outcomes of the promises
    [response.text()] and [response.json()]. *)
Module Response.
Record t : Type := mk {
  ok : bool;
  status : Z;
  text : Thrown + string;
  json : Thrown + value
}.
End Response.

(** The outside world: the outcome of [fetch] for a request, and the
    UUIDs that [crypto.randomUUID] hands out, by rank. *)
Record Env : Type := {
  fetch : Request.t -> Thrown + Response.t;
  randomUUID : nat -> string
}.

Inductive ClientCall : Type :=
| CallGet (endpoint : string) (params : option Obj)
| CallPost (endpoint : string) (data : option Obj)
| CallDelete (endpoint : string)
| CallMoveTask (taskId : value) (destination : Obj).

(** Ghost logs (oldest first) and the number of UUIDs drawn so far. *)
Record State : Type := {
  calls : list ClientCall;
  requests : list Request.t;
  raised : list Thrown;
  drawn : nat
}.

Definition initial : State :=
  {| calls := []; requests := []; raised := []; drawn := 0 |}.

(** ** The monad of handlers *)

Definition M (A : Type) : Type := Env -> State -> (Thrown + A) * State.

Definition ret {A} (a : A) : M A := fun _ st => (inr a, st).

Definition bind {A B} (m : M A) (k : A -> M B) : M B :=
  fun env st =>
    match m env st with
    | (inr a, st') => k a env st'
    | (inl e, st') => (inl e, st')
    end.

Notation "'let!' x ':=' m 'in' k" := (bind m (fun x => k))
  (at level 10, x name, m at level 100, k at level 200).

Definition throw {A} (e : Thrown) : M A :=
  fun _ st =>
    (inl e, {| calls := calls st; requests := requests st;
               raised := (raised st ++ [e])%list; drawn := drawn st |}).

(** [try { m } catch (error) { k error }] *)
Definition try_catch {A} (m : M A) (k : Thrown -> M A) : M A :=
  fun env st =>
    match m env st with
    | (inr a, st') => (inr a, st')
    | (inl e, st') => k e env st'
    end.

(** [await p] for a promise with a known outcome. *)
Definition await {A} (p : Thrown + A) : M A :=
  match p with
  | inr a => ret a
  | inl e => throw e
  end.

Definition log_call (c : ClientCall) : M unit :=
  fun _ st =>
    (inr tt, {| calls := (calls st ++ [c])%list; requests := requests st;
                raised := raised st; drawn := drawn st |}).

(** [await fetch(url, init)] *)
Definition do_fetch (req : Request.t) : M Response.t :=
  fun env st =>
    await (fetch env req) env
      {| calls := calls st; requests := (requests st ++ [req])%list;
         raised := raised st; drawn := drawn st |}.

(** [crypto.randomUUID()] *)
Definition crypto_randomUUID : M string :=
  fun env st =>
    (inr (randomUUID env (drawn st)),
     {| calls := calls st; requests := requests st;
        raised := raised st; drawn := S (drawn st) |}).

(** Reading a property of [v] throws a [TypeError] when [v] is [null] or
    [undefined] (message as V8 words it). *)
Definition member (v : value) (k : string) : M value :=
  match v with
  | VUndefined =>
      throw (JsError ("Cannot read properties of undefined (reading '"
                      +:+ k +:+ "')"))
  | VNull =>
      throw (JsError ("Cannot read properties of null (reading '"
                      +:+ k +:+ "')"))
  | _ => ret (prop v k)
  end.

Fixpoint mapM {A B} (f : A -> M B) (l : list A) : M (list B) :=
  match l with
  | [] => ret []
  | x :: l' =>
      let! y := f x in
      let! ys := mapM f l' in
      ret (y :: ys)
  end.

(** ** TodoistApiClient.ts *)

Definition API_BASE_URL : string := "https://api.todoist.com/rest/v2".
Definition SYNC_API_URL : string := "https://api.todoist.com/sync/v9/sync".

Module TodoistClient.

Record t : Type := new { apiToken : string }.

Definition getHeaders (this : t) (includeContentType : bool)
  : list (string * string) :=
  let headers := [("Authorization", "Bearer " +:+ apiToken this);
                  ("Accept", "application/json")] in
  if includeContentType
  then (headers ++ [("Content-Type", "application/json")])%list
  else headers.

Definition handleResponse (response : Response.t) : M value :=
  if negb (Response.ok response) then
    let! errorText := await (Response.text response) in
    throw (JsError ("Todoist API error ("
                    +:+ ToString (VNum (Response.status response))
                    +:+ "): " +:+ errorText))
  else if Response.status response =? 204 then ret VNull
  else await (Response.json response).

(** The loop over [Object.entries(params)] filling [queryParams]. *)
Definition queryParams_of (params : Obj) : URLSearchParams.t :=
  fold_left
    (fun queryParams kv =>
       if truthy (snd kv)
       then URLSearchParams.append queryParams (fst kv) (ToString (snd kv))
       else queryParams)
    (Object.entries params) URLSearchParams.new.

Definition get_url (endpoint : string) (params : Obj) : string :=
  let url := API_BASE_URL +:+ endpoint in
  let queryString := URLSearchParams.toString (queryParams_of params) in
  if negb (String.eqb queryString "") then url +:+ "?" +:+ queryString
  else url.

(** [params] omitted ([None]) takes the default [{}]. *)
Definition get (this : t) (endpoint : string) (params : option Obj)
  : M value :=
  let! _ := log_call (CallGet endpoint params) in
  let params := match params with Some p => p | None => [] end in
  let url := get_url endpoint params in
  let! response :=
    do_fetch (Request.mk url "GET" (getHeaders this false) None) in
  handleResponse response.

Definition post (this : t) (endpoint : string) (data : option Obj)
  : M value :=
  let! _ := log_call (CallPost endpoint data) in
  let data := match data with Some d => d | None => [] end in
  let url := API_BASE_URL +:+ endpoint in
  let! response :=
    do_fetch (Request.mk url "POST" (getHeaders this true)
                (JSON_stringify (VObj data) 0)) in
  handleResponse response.

Definition delete (this : t) (endpoint : string) : M value :=
  let! _ := log_call (CallDelete endpoint) in
  let url := API_BASE_URL +:+ endpoint in
  let! response :=
    do_fetch (Request.mk url "DELETE" (getHeaders this false) None) in
  handleResponse response.

Definition moveTask (this : t) (taskId : value) (destination : Obj)
  : M value :=
  let! _ := log_call (CallMoveTask taskId destination) in
  let! uuid := crypto_randomUUID in
  let args : Obj := [("id", taskId)] in
  let args := assign_if (truthy (Object.get destination "project_id"))
                args "project_id" (Object.get destination "project_id") in
  let args := assign_if (truthy (Object.get destination "section_id"))
                args "section_id" (Object.get destination "section_id") in
  let args := assign_if (truthy (Object.get destination "parent_id"))
                args "parent_id" (Object.get destination "parent_id") in
  let commands :=
    VArr [VObj [("type", VStr "item_move"); ("uuid", VStr uuid);
                ("args", VObj args)]] in
  let! response :=
    do_fetch (Request.mk SYNC_API_URL "POST" (getHeaders this true)
                (JSON_stringify (VObj [("commands", commands)]) 0)) in
  if negb (Response.ok response) then
    let! errorText := await (Response.text response) in
    throw (JsError ("Todoist Sync API error ("
                    +:+ ToString (VNum (Response.status response))
                    +:+ "): " +:+ errorText))
  else
    let! result := await (Response.json response) in
    (* Check if the command was successful *)
    let! sync_status := member result "sync_status" in
    if truthy sync_status
       && negb (strict_eq_str (prop sync_status uuid) "ok")
    then throw (JsError ("Move task failed: "
                         +:+ template_opt
                               (JSON_stringify (prop sync_status uuid) 0)))
    else ret result.

End TodoistClient.

(** ** index.ts: results, props, handlers *)

Record ContentBlock : Type := { type : string; text : option string }.

Record ToolResult : Type := {
  content : list ContentBlock;
  isError : option bool          (* [None]: the key is absent *)
}.

(** [{ content: [{ type: 'text', text: s }] }] *)
Definition result_text (s : option string) : ToolResult :=
  {| content := [{| type := "text"; text := s |}]; isError := None |}.

(** [{ content: [{ type: 'text', text: s }], isError: true }] *)
Definition result_error (s : string) : ToolResult :=
  {| content := [{| type := "text"; text := Some s |}];
     isError := Some true |}.

Record Props : Type := {
  full_name : string;
  email : string;
  accessToken : string
}.

Definition Handler : Type := Obj -> M ToolResult.

Section Handlers.

Variable this_props : Props.

Definition me : Handler := fun _ =>
  ret (result_text
         (JSON_stringify (VObj [("email", VStr (email this_props));
                                ("full_name", VStr (full_name this_props))])
            0)).

(** The callback of [tasks.map] in [get_tasks_by_filter]. *)
Definition format_task (task : value) : M value :=
  let! content := member task "content" in
  let! description := member task "description" in
  let! due := member task "due" in
  let date := if nullish due then VUndefined else prop due "date" in
  ret (VObj [("content", content);
             ("description", description);
             ("due_date", if truthy date then date else VNull)]).

(** [tasks.map(f)]: a [TypeError] unless [tasks] is an array. *)
Definition tasks_map (tasks : value) (f : value -> M value) : M value :=
  match tasks with
  | VArr l => let! l' := mapM f l in ret (VArr l')
  | VUndefined =>
      throw (JsError "Cannot read properties of undefined (reading 'map')")
  | VNull =>
      throw (JsError "Cannot read properties of null (reading 'map')")
  | _ => throw (JsError "tasks.map is not a function")
  end.

Definition get_tasks_by_filter : Handler := fun a =>
  let filter := Object.get a "filter" in
  let client := TodoistClient.new (accessToken this_props) in
  try_catch
    (let! tasks :=
       TodoistClient.get client "/tasks" (Some [("filter", filter)]) in
     (* Extract required fields and format the response *)
     let! formattedTasks := tasks_map tasks format_task in
     ret (result_text (JSON_stringify formattedTasks 2)))
    (fun error =>
       let errorMessage := error_message error in
       ret (result_error ("Error fetching tasks: " +:+ errorMessage))).

Definition create_project : Handler := fun a =>
  let name := Object.get a "name" in
  let description := Object.get a "description" in
  let parent_id := Object.get a "parent_id" in
  let color := Object.get a "color" in
  let is_favorite := Object.get a "is_favorite" in
  let view_style := Object.get a "view_style" in
  let client := TodoistClient.new (accessToken this_props) in
  try_catch
    (let! project :=
       TodoistClient.post client "/projects"
         (Some [("name", name); ("description", description);
                ("parent_id", parent_id); ("color", color);
                ("is_favorite", is_favorite); ("view_style", view_style)]) in
     ret (result_text (JSON_stringify project 2)))
    (fun error =>
       let errorMessage := error_message error in
       ret (result_error ("Error creating project: " +:+ errorMessage))).

Definition get_projects : Handler := fun a =>
  let cursor := Object.get a "cursor" in
  let limit := Object.get a "limit" in
  let client := TodoistClient.new (accessToken this_props) in
  try_catch
    (let params : Obj := [] in
     let params := assign_if (truthy cursor) params "cursor" cursor in
     let params := assign_if (truthy limit) params "limit" limit in
     let! response := TodoistClient.get client "/projects" (Some params) in
     ret (result_text (JSON_stringify response 2)))
    (fun error =>
       let errorMessage := error_message error in
       ret (result_error ("Error fetching projects: " +:+ errorMessage))).

Definition get_project : Handler := fun a =>
  let project_id := Object.get a "project_id" in
  let client := TodoistClient.new (accessToken this_props) in
  try_catch
    (let! project :=
       TodoistClient.get client ("/projects/" +:+ ToString project_id) None in
     ret (result_text (JSON_stringify project 2)))
    (fun error =>
       let errorMessage := error_message error in
       ret (result_error ("Error fetching project: " +:+ errorMessage))).

Definition update_project : Handler := fun a =>
  let project_id := Object.get a "project_id" in
  let name := Object.get a "name" in
  let description := Object.get a "description" in
  let color := Object.get a "color" in
  let is_favorite := Object.get a "is_favorite" in
  let view_style := Object.get a "view_style" in
  let client := TodoistClient.new (accessToken this_props) in
  try_catch
    (let updateData : Obj := [] in
     let updateData := assign_if (negb (value_is_undefined name))
                         updateData "name" name in
     let updateData := assign_if (negb (value_is_undefined description))
                         updateData "description" description in
     let updateData := assign_if (negb (value_is_undefined color))
                         updateData "color" color in
     let updateData := assign_if (negb (value_is_undefined is_favorite))
                         updateData "is_favorite" is_favorite in
     let updateData := assign_if (negb (value_is_undefined view_style))
                         updateData "view_style" view_style in
     let! project :=
       TodoistClient.post client ("/projects/" +:+ ToString project_id)
         (Some updateData) in
     ret (result_text (JSON_stringify project 2)))
    (fun error =>
       let errorMessage := error_message error in
       ret (result_error ("Error updating project: " +:+ errorMessage))).

Definition delete_project : Handler := fun a =>
  let project_id := Object.get a "project_id" in
  let client := TodoistClient.new (accessToken this_props) in
  try_catch
    (let! _ :=
       TodoistClient.delete client ("/projects/" +:+ ToString project_id) in
     ret (result_text (Some "Project deleted successfully")))
    (fun error =>
       let errorMessage := error_message error in
       ret (result_error ("Error deleting project: " +:+ errorMessage))).

Definition archive_project : Handler := fun a =>
  let project_id := Object.get a "project_id" in
  let client := TodoistClient.new (accessToken this_props) in
  try_catch
    (let! _ :=
       TodoistClient.post client
         ("/projects/" +:+ ToString project_id +:+ "/archive") None in
     ret (result_text (Some "Project archived successfully")))
    (fun error =>
       let errorMessage := error_message error in
       ret (result_error ("Error archiving project: " +:+ errorMessage))).

Definition unarchive_project : Handler := fun a =>
  let project_id := Object.get a "project_id" in
  let client := TodoistClient.new (accessToken this_props) in
  try_catch
    (let! _ :=
       TodoistClient.post client
         ("/projects/" +:+ ToString project_id +:+ "/unarchive") None in
     ret (result_text (Some "Project unarchived successfully")))
    (fun error =>
       let errorMessage := error_message error in
       ret (result_error ("Error unarchiving project: " +:+ errorMessage))).

Definition get_project_collaborators : Handler := fun a =>
  let project_id := Object.get a "project_id" in
  let client := TodoistClient.new (accessToken this_props) in
  try_catch
    (let! collaborators :=
       TodoistClient.get client
         ("/projects/" +:+ ToString project_id +:+ "/collaborators") None in
     ret (result_text (JSON_stringify collaborators 2)))
    (fun error =>
       let errorMessage := error_message error in
       ret (result_error ("Error fetching collaborators: " +:+ errorMessage))).

Definition create_section : Handler := fun a =>
  let name := Object.get a "name" in
  let project_id := Object.get a "project_id" in
  let order := Object.get a "order" in
  let client := TodoistClient.new (accessToken this_props) in
  try_catch
    (let! section :=
       TodoistClient.post client "/sections"
         (Some [("name", name); ("project_id", project_id);
                ("order", order)]) in
     ret (result_text (JSON_stringify section 2)))
    (fun error =>
       let errorMessage := error_message error in
       ret (result_error ("Error creating section: " +:+ errorMessage))).

Definition get_sections : Handler := fun a =>
  let project_id := Object.get a "project_id" in
  let cursor := Object.get a "cursor" in
  let limit := Object.get a "limit" in
  let client := TodoistClient.new (accessToken this_props) in
  try_catch
    (let params : Obj := [] in
     let params := assign_if (truthy project_id)
                     params "project_id" project_id in
     let params := assign_if (truthy cursor) params "cursor" cursor in
     let params := assign_if (truthy limit) params "limit" limit in
     let! response := TodoistClient.get client "/sections" (Some params) in
     ret (result_text (JSON_stringify response 2)))
    (fun error =>
       let errorMessage := error_message error in
       ret (result_error ("Error fetching sections: " +:+ errorMessage))).

Definition get_section : Handler := fun a =>
  let section_id := Object.get a "section_id" in
  let client := TodoistClient.new (accessToken this_props) in
  try_catch
    (let! section :=
       TodoistClient.get client ("/sections/" +:+ ToString section_id) None in
     ret (result_text (JSON_stringify section 2)))
    (fun error =>
       let errorMessage := error_message error in
       ret (result_error ("Error fetching section: " +:+ errorMessage))).

Definition update_section : Handler := fun a =>
  let section_id := Object.get a "section_id" in
  let name := Object.get a "name" in
  let client := TodoistClient.new (accessToken this_props) in
  try_catch
    (let! section :=
       TodoistClient.post client ("/sections/" +:+ ToString section_id)
         (Some [("name", name)]) in
     ret (result_text (JSON_stringify section 2)))
    (fun error =>
       let errorMessage := error_message error in
       ret (result_error ("Error updating section: " +:+ errorMessage))).

Definition delete_section : Handler := fun a =>
  let section_id := Object.get a "section_id" in
  let client := TodoistClient.new (accessToken this_props) in
  try_catch
    (let! _ :=
       TodoistClient.delete client ("/sections/" +:+ ToString section_id) in
     ret (result_text (Some "Section deleted successfully")))
    (fun error =>
       let errorMessage := error_message error in
       ret (result_error ("Error deleting section: " +:+ errorMessage))).

Definition create_task : Handler := fun a =>
  let content := Object.get a "content" in
  let description := Object.get a "description" in
  let project_id := Object.get a "project_id" in
  let section_id := Object.get a "section_id" in
  let parent_id := Object.get a "parent_id" in
  let labels := Object.get a "labels" in
  let priority := Object.get a "priority" in
  let due_string := Object.get a "due_string" in
  let due_date := Object.get a "due_date" in
  let due_datetime := Object.get a "due_datetime" in
  let deadline_date := Object.get a "deadline_date" in
  let assignee_id := Object.get a "assignee_id" in
  let client := TodoistClient.new (accessToken this_props) in
  try_catch
    (let taskData : Obj := [("content", content)] in
     let taskData := assign_if (truthy description)
                       taskData "description" description in
     let taskData := assign_if (truthy project_id)
                       taskData "project_id" project_id in
     let taskData := assign_if (truthy section_id)
                       taskData "section_id" section_id in
     let taskData := assign_if (truthy parent_id)
                       taskData "parent_id" parent_id in
     let taskData := assign_if (truthy labels) taskData "labels" labels in
     let taskData := assign_if (truthy priority)
                       taskData "priority" priority in
     let taskData := assign_if (truthy due_string)
                       taskData "due_string" due_string in
     let taskData := assign_if (truthy due_date)
                       taskData "due_date" due_date in
     let taskData := assign_if (truthy due_datetime)
                       taskData "due_datetime" due_datetime in
     let taskData := assign_if (truthy deadline_date)
                       taskData "deadline_date" deadline_date in
     let taskData := assign_if (truthy assignee_id)
                       taskData "assignee_id" assignee_id in
     let! task := TodoistClient.post client "/tasks" (Some taskData) in
     ret (result_text (JSON_stringify task 2)))
    (fun error =>
       let errorMessage := error_message error in
       ret (result_error ("Error creating task: " +:+ errorMessage))).

Definition get_tasks : Handler := fun a =>
  let project_id := Object.get a "project_id" in
  let section_id := Object.get a "section_id" in
  let parent_id := Object.get a "parent_id" in
  let label := Object.get a "label" in
  let ids := Object.get a "ids" in
  let cursor := Object.get a "cursor" in
  let limit := Object.get a "limit" in
  let client := TodoistClient.new (accessToken this_props) in
  try_catch
    (let params : Obj := [] in
     let params := assign_if (truthy project_id)
                     params "project_id" project_id in
     let params := assign_if (truthy section_id)
                     params "section_id" section_id in
     let params := assign_if (truthy parent_id)
                     params "parent_id" parent_id in
     let params := assign_if (truthy label) params "label" label in
     let params := assign_if (truthy ids) params "ids" ids in
     let params := assign_if (truthy cursor) params "cursor" cursor in
     let params := assign_if (truthy limit) params "limit" limit in
     let! response := TodoistClient.get client "/tasks" (Some params) in
     ret (result_text (JSON_stringify response 2)))
    (fun error =>
       let errorMessage := error_message error in
       ret (result_error ("Error fetching tasks: " +:+ errorMessage))).

Definition get_task : Handler := fun a =>
  let task_id := Object.get a "task_id" in
  let client := TodoistClient.new (accessToken this_props) in
  try_catch
    (let! task :=
       TodoistClient.get client ("/tasks/" +:+ ToString task_id) None in
     ret (result_text (JSON_stringify task 2)))
    (fun error =>
       let errorMessage := error_message error in
       ret (result_error ("Error fetching task: " +:+ errorMessage))).

Definition update_task : Handler := fun a =>
  let task_id := Object.get a "task_id" in
  let content := Object.get a "content" in
  let description := Object.get a "description" in
  let labels := Object.get a "labels" in
  let priority := Object.get a "priority" in
  let due_string := Object.get a "due_string" in
  let due_date := Object.get a "due_date" in
  let due_datetime := Object.get a "due_datetime" in
  let deadline_date := Object.get a "deadline_date" in
  let assignee_id := Object.get a "assignee_id" in
  let client := TodoistClient.new (accessToken this_props) in
  try_catch
    (let updateData : Obj := [] in
     let updateData := assign_if (negb (value_is_undefined content))
                         updateData "content" content in
     let updateData := assign_if (negb (value_is_undefined description))
                         updateData "description" description in
     let updateData := assign_if (negb (value_is_undefined labels))
                         updateData "labels" labels in
     let updateData := assign_if (negb (value_is_undefined priority))
                         updateData "priority" priority in
     let updateData := assign_if (negb (value_is_undefined due_string))
                         updateData "due_string" due_string in
     let updateData := assign_if (negb (value_is_undefined due_date))
                         updateData "due_date" due_date in
     let updateData := assign_if (negb (value_is_undefined due_datetime))
                         updateData "due_datetime" due_datetime in
     let updateData := assign_if (negb (value_is_undefined deadline_date))
                         updateData "deadline_date" deadline_date in
     let updateData := assign_if (negb (value_is_undefined assignee_id))
                         updateData "assignee_id" assignee_id in
     let! task :=
       TodoistClient.post client ("/tasks/" +:+ ToString task_id)
         (Some updateData) in
     ret (result_text (JSON_stringify task 2)))
    (fun error =>
       let errorMessage := error_message error in
       ret (result_error ("Error updating task: " +:+ errorMessage))).

Definition delete_task : Handler := fun a =>
  let task_id := Object.get a "task_id" in
  let client := TodoistClient.new (accessToken this_props) in
  try_catch
    (let! _ :=
       TodoistClient.delete client ("/tasks/" +:+ ToString task_id) in
     ret (result_text (Some "Task deleted successfully")))
    (fun error =>
       let errorMessage := error_message error in
       ret (result_error ("Error deleting task: " +:+ errorMessage))).

Definition close_task : Handler := fun a =>
  let task_id := Object.get a "task_id" in
  let client := TodoistClient.new (accessToken this_props) in
  try_catch
    (let! _ :=
       TodoistClient.post client
         ("/tasks/" +:+ ToString task_id +:+ "/close") None in
     ret (result_text (Some "Task completed successfully")))
    (fun error =>
       let errorMessage := error_message error in
       ret (result_error ("Error completing task: " +:+ errorMessage))).

Definition reopen_task : Handler := fun a =>
  let task_id := Object.get a "task_id" in
  let client := TodoistClient.new (accessToken this_props) in
  try_catch
    (let! _ :=
       TodoistClient.post client
         ("/tasks/" +:+ ToString task_id +:+ "/reopen") None in
     ret (result_text (Some "Task reopened successfully")))
    (fun error =>
       let errorMessage := error_message error in
       ret (result_error ("Error reopening task: " +:+ errorMessage))).

Definition move_task : Handler := fun a =>
  let task_id := Object.get a "task_id" in
  let project_id := Object.get a "project_id" in
  let section_id := Object.get a "section_id" in
  let parent_id := Object.get a "parent_id" in
  let client := TodoistClient.new (accessToken this_props) in
  try_catch
    ((* Validate that at least one destination is provided *)
     if negb (truthy project_id) && negb (truthy section_id)
        && negb (truthy parent_id)
     then
       ret (result_error
              "Error: At least one destination must be provided (project_id, section_id, or parent_id)")
     else
       let destination : Obj := [] in
       let destination := assign_if (truthy project_id)
                            destination "project_id" project_id in
       let destination := assign_if (truthy section_id)
                            destination "section_id" section_id in
       let destination := assign_if (truthy parent_id)
                            destination "parent_id" parent_id in
       let! result := TodoistClient.moveTask client task_id destination in
       ret (result_text
              (Some ("Task moved successfully." +:+ nl
                     +:+ template_opt (JSON_stringify result 2)))))
    (fun error =>
       let errorMessage := error_message error in
       ret (result_error ("Error moving task: " +:+ errorMessage))).

Definition quick_add_task : Handler := fun a =>
  let text := Object.get a "text" in
  let note := Object.get a "note" in
  let reminder := Object.get a "reminder" in
  let auto_reminder := Object.get a "auto_reminder" in
  let client := TodoistClient.new (accessToken this_props) in
  try_catch
    (let quickData : Obj := [("text", text)] in
     let quickData := assign_if (truthy note) quickData "note" note in
     let quickData := assign_if (truthy reminder)
                        quickData "reminder" reminder in
     let quickData := assign_if (negb (value_is_undefined auto_reminder))
                        quickData "auto_reminder" auto_reminder in
     let! task := TodoistClient.post client "/tasks/quick" (Some quickData) in
     ret (result_text (JSON_stringify task 2)))
    (fun error =>
       let errorMessage := error_message error in
       ret (result_error ("Error creating quick task: " +:+ errorMessage))).

Definition get_completed_tasks_by_completion_date : Handler := fun a =>
  let since := Object.get a "since" in
  let until := Object.get a "until" in
  let project_id := Object.get a "project_id" in
  let section_id := Object.get a "section_id" in
  let parent_id := Object.get a "parent_id" in
  let filter_query := Object.get a "filter_query" in
  let filter_lang := Object.get a "filter_lang" in
  let workspace_id := Object.get a "workspace_id" in
  let limit := Object.get a "limit" in
  let cursor := Object.get a "cursor" in
  let client := TodoistClient.new (accessToken this_props) in
  try_catch
    (let params : Obj := [("since", since); ("until", until)] in
     let params := assign_if (truthy project_id)
                     params "project_id" project_id in
     let params := assign_if (truthy section_id)
                     params "section_id" section_id in
     let params := assign_if (truthy parent_id)
                     params "parent_id" parent_id in
     let params := assign_if (truthy filter_query)
                     params "filter_query" filter_query in
     let params := assign_if (truthy filter_lang)
                     params "filter_lang" filter_lang in
     let params := assign_if (truthy workspace_id)
                     params "workspace_id" workspace_id in
     let params := assign_if (truthy limit) params "limit" limit in
     let params := assign_if (truthy cursor) params "cursor" cursor in
     let! response :=
       TodoistClient.get client "/tasks/completed/by_completion_date"
         (Some params) in
     ret (result_text (JSON_stringify response 2)))
    (fun error =>
       let errorMessage := error_message error in
       ret (result_error
              ("Error fetching completed tasks: " +:+ errorMessage))).

Definition get_completed_tasks_by_due_date : Handler := fun a =>
  let since := Object.get a "since" in
  let until := Object.get a "until" in
  let project_id := Object.get a "project_id" in
  let section_id := Object.get a "section_id" in
  let parent_id := Object.get a "parent_id" in
  let filter_query := Object.get a "filter_query" in
  let filter_lang := Object.get a "filter_lang" in
  let workspace_id := Object.get a "workspace_id" in
  let limit := Object.get a "limit" in
  let cursor := Object.get a "cursor" in
  let client := TodoistClient.new (accessToken this_props) in
  try_catch
    (let params : Obj := [("since", since); ("until", until)] in
     let params := assign_if (truthy project_id)
                     params "project_id" project_id in
     let params := assign_if (truthy section_id)
                     params "section_id" section_id in
     let params := assign_if (truthy parent_id)
                     params "parent_id" parent_id in
     let params := assign_if (truthy filter_query)
                     params "filter_query" filter_query in
     let params := assign_if (truthy filter_lang)
                     params "filter_lang" filter_lang in
     let params := assign_if (truthy workspace_id)
                     params "workspace_id" workspace_id in
     let params := assign_if (truthy limit) params "limit" limit in
     let params := assign_if (truthy cursor) params "cursor" cursor in
     let! response :=
       TodoistClient.get client "/tasks/completed/by_due_date"
         (Some params) in
     ret (result_text (JSON_stringify response 2)))
    (fun error =>
       let errorMessage := error_message error in
       ret (result_error
              ("Error fetching completed tasks by due date: "
               +:+ errorMessage))).

Definition create_label : Handler := fun a =>
  let name := Object.get a "name" in
  let color := Object.get a "color" in
  let order := Object.get a "order" in
  let is_favorite := Object.get a "is_favorite" in
  let client := TodoistClient.new (accessToken this_props) in
  try_catch
    (let labelData : Obj := [("name", name)] in
     let labelData := assign_if (truthy color) labelData "color" color in
     let labelData := assign_if (negb (value_is_undefined order))
                        labelData "order" order in
     let labelData := assign_if (negb (value_is_undefined is_favorite))
                        labelData "is_favorite" is_favorite in
     let! label := TodoistClient.post client "/labels" (Some labelData) in
     ret (result_text (JSON_stringify label 2)))
    (fun error =>
       let errorMessage := error_message error in
       ret (result_error ("Error creating label: " +:+ errorMessage))).

Definition get_labels : Handler := fun a =>
  let cursor := Object.get a "cursor" in
  let limit := Object.get a "limit" in
  let client := TodoistClient.new (accessToken this_props) in
  try_catch
    (let params : Obj := [] in
     let params := assign_if (truthy cursor) params "cursor" cursor in
     let params := assign_if (truthy limit) params "limit" limit in
     let! response := TodoistClient.get client "/labels" (Some params) in
     ret (result_text (JSON_stringify response 2)))
    (fun error =>
       let errorMessage := error_message error in
       ret (result_error ("Error fetching labels: " +:+ errorMessage))).

Definition get_label : Handler := fun a =>
  let label_id := Object.get a "label_id" in
  let client := TodoistClient.new (accessToken this_props) in
  try_catch
    (let! label :=
       TodoistClient.get client ("/labels/" +:+ ToString label_id) None in
     ret (result_text (JSON_stringify label 2)))
    (fun error =>
       let errorMessage := error_message error in
       ret (result_error ("Error fetching label: " +:+ errorMessage))).

Definition update_label : Handler := fun a =>
  let label_id := Object.get a "label_id" in
  let name := Object.get a "name" in
  let color := Object.get a "color" in
  let order := Object.get a "order" in
  let is_favorite := Object.get a "is_favorite" in
  let client := TodoistClient.new (accessToken this_props) in
  try_catch
    (let updateData : Obj := [] in
     let updateData := assign_if (negb (value_is_undefined name))
                         updateData "name" name in
     let updateData := assign_if (negb (value_is_undefined color))
                         updateData "color" color in
     let updateData := assign_if (negb (value_is_undefined order))
                         updateData "order" order in
     let updateData := assign_if (negb (value_is_undefined is_favorite))
                         updateData "is_favorite" is_favorite in
     let! label :=
       TodoistClient.post client ("/labels/" +:+ ToString label_id)
         (Some updateData) in
     ret (result_text (JSON_stringify label 2)))
    (fun error =>
       let errorMessage := error_message error in
       ret (result_error ("Error updating label: " +:+ errorMessage))).

Definition delete_label : Handler := fun a =>
  let label_id := Object.get a "label_id" in
  let client := TodoistClient.new (accessToken this_props) in
  try_catch
    (let! _ :=
       TodoistClient.delete client ("/labels/" +:+ ToString label_id) in
     ret (result_text (Some "Label deleted successfully")))
    (fun error =>
       let errorMessage := error_message error in
       ret (result_error ("Error deleting label: " +:+ errorMessage))).

Definition get_shared_labels : Handler := fun a =>
  let omit_personal := Object.get a "omit_personal" in
  let client := TodoistClient.new (accessToken this_props) in
  try_catch
    (let params : Obj := [] in
     let params := assign_if (negb (value_is_undefined omit_personal))
                     params "omit_personal" omit_personal in
     let! response :=
       TodoistClient.get client "/labels/shared" (Some params) in
     ret (result_text (JSON_stringify response 2)))
    (fun error =>
       let errorMessage := error_message error in
       ret (result_error ("Error fetching shared labels: " +:+ errorMessage))).

Definition remove_shared_label : Handler := fun a =>
  let name := Object.get a "name" in
  let client := TodoistClient.new (accessToken this_props) in
  try_catch
    (let! _ :=
       TodoistClient.post client "/labels/shared/remove"
         (Some [("name", name)]) in
     ret (result_text (Some "Shared label removed successfully")))
    (fun error =>
       let errorMessage := error_message error in
       ret (result_error ("Error removing shared label: " +:+ errorMessage))).

Definition rename_shared_label : Handler := fun a =>
  let name := Object.get a "name" in
  let new_name := Object.get a "new_name" in
  let client := TodoistClient.new (accessToken this_props) in
  try_catch
    (let! _ :=
       TodoistClient.post client "/labels/shared/rename"
         (Some [("name", name); ("new_name", new_name)]) in
     ret (result_text (Some "Shared label renamed successfully")))
    (fun error =>
       let errorMessage := error_message error in
       ret (result_error ("Error renaming shared label: " +:+ errorMessage))).

Definition create_comment : Handler := fun a =>
  let content := Object.get a "content" in
  let task_id := Object.get a "task_id" in
  let project_id := Object.get a "project_id" in
  let attachment := Object.get a "attachment" in
  let client := TodoistClient.new (accessToken this_props) in
  try_catch
    (let commentData : Obj := [("content", content)] in
     let commentData := assign_if (truthy task_id)
                          commentData "task_id" task_id in
     let commentData := assign_if (truthy project_id)
                          commentData "project_id" project_id in
     let commentData := assign_if (truthy attachment)
                          commentData "attachment" attachment in
     let! comment :=
       TodoistClient.post client "/comments" (Some commentData) in
     ret (result_text (JSON_stringify comment 2)))
    (fun error =>
       let errorMessage := error_message error in
       ret (result_error ("Error creating comment: " +:+ errorMessage))).

Definition get_comments : Handler := fun a =>
  let task_id := Object.get a "task_id" in
  let project_id := Object.get a "project_id" in
  let cursor := Object.get a "cursor" in
  let limit := Object.get a "limit" in
  let client := TodoistClient.new (accessToken this_props) in
  try_catch
    (let params : Obj := [] in
     let params := assign_if (truthy task_id) params "task_id" task_id in
     let params := assign_if (truthy project_id)
                     params "project_id" project_id in
     let params := assign_if (truthy cursor) params "cursor" cursor in
     let params := assign_if (truthy limit) params "limit" limit in
     let! response := TodoistClient.get client "/comments" (Some params) in
     ret (result_text (JSON_stringify response 2)))
    (fun error =>
       let errorMessage := error_message error in
       ret (result_error ("Error fetching comments: " +:+ errorMessage))).

Definition get_comment : Handler := fun a =>
  let comment_id := Object.get a "comment_id" in
  let client := TodoistClient.new (accessToken this_props) in
  try_catch
    (let! comment :=
       TodoistClient.get client ("/comments/" +:+ ToString comment_id) None in
     ret (result_text (JSON_stringify comment 2)))
    (fun error =>
       let errorMessage := error_message error in
       ret (result_error ("Error fetching comment: " +:+ errorMessage))).

Definition update_comment : Handler := fun a =>
  let comment_id := Object.get a "comment_id" in
  let content := Object.get a "content" in
  let client := TodoistClient.new (accessToken this_props) in
  try_catch
    (let! comment :=
       TodoistClient.post client ("/comments/" +:+ ToString comment_id)
         (Some [("content", content)]) in
     ret (result_text (JSON_stringify comment 2)))
    (fun error =>
       let errorMessage := error_message error in
       ret (result_error ("Error updating comment: " +:+ errorMessage))).

Definition delete_comment : Handler := fun a =>
  let comment_id := Object.get a "comment_id" in
  let client := TodoistClient.new (accessToken this_props) in
  try_catch
    (let! _ :=
       TodoistClient.delete client ("/comments/" +:+ ToString comment_id) in
     ret (result_text (Some "Comment deleted successfully")))
    (fun error =>
       let errorMessage := error_message error in
       ret (result_error ("Error deleting comment: " +:+ errorMessage))).

End Handlers.

(** ** Tool filter and registration *)

(** The static fields of [TodoistMCP] that configure the filter. *)
Record Statics : Type := {
  MINIMAL_TOOL_SET : bool;
  ESSENTIAL_TOOLS : gset string
}.

(** The values compiled into the class. *)
Definition TodoistMCP : Statics := {|
  MINIMAL_TOOL_SET := true;
  ESSENTIAL_TOOLS :=
    list_to_set
      ["create_task"; "get_tasks"; "update_task"; "close_task";
       "get_projects"; "get_project"; "move_task"; "get_tasks_by_filter";
       "create_project"; "update_project"; "get_sections"; "delete_task";
       "reopen_task"; "get_labels"; "create_section"; "update_section";
       "get_completed_tasks_by_completion_date";
       "get_completed_tasks_by_due_date"]
|}.

(** [Set.prototype.has] *)
Definition Set_has (s : gset string) (x : string) : bool := bool_decide (x ∈ s).

Definition shouldRegisterTool (cls : Statics) (toolName : string) : bool :=
  negb (MINIMAL_TOOL_SET cls) || Set_has (ESSENTIAL_TOOLS cls) toolName.

(** [McpServer]: the table of registered tools. Every name is registered
    at most once by [init], so [server.tool] is an insertion. *)
Abbreviation Server := (gmap string Handler).

Definition server_tool (server : Server) (name : string) (cb : Handler)
  : Server := <[name := cb]> server.

(** [if (this.shouldRegisterTool(name)) { this.server.tool(name, ..., cb) }] *)
Definition tool_if (c : bool) (server : Server) (name : string) (cb : Handler)
  : Server := if c then server_tool server name cb else server.

Definition init (cls : Statics) (this_props : Props) : Server :=
  let server : Server := ∅ in
  let server := tool_if (shouldRegisterTool cls "me")
                  server "me" (me this_props) in
  let server := server_tool server "get_tasks_by_filter"
                  (get_tasks_by_filter this_props) in
  let server := server_tool server "create_project"
                  (create_project this_props) in
  let server := server_tool server "get_projects" (get_projects this_props) in
  let server := server_tool server "get_project" (get_project this_props) in
  let server := server_tool server "update_project"
                  (update_project this_props) in
  let server := tool_if (shouldRegisterTool cls "delete_project")
                  server "delete_project" (delete_project this_props) in
  let server := tool_if (shouldRegisterTool cls "archive_project")
                  server "archive_project" (archive_project this_props) in
  let server := tool_if (shouldRegisterTool cls "unarchive_project")
                  server "unarchive_project" (unarchive_project this_props) in
  let server := tool_if (shouldRegisterTool cls "get_project_collaborators")
                  server "get_project_collaborators"
                  (get_project_collaborators this_props) in
  let server := tool_if (shouldRegisterTool cls "create_section")
                  server "create_section" (create_section this_props) in
  let server := server_tool server "get_sections" (get_sections this_props) in
  let server := tool_if (shouldRegisterTool cls "get_section")
                  server "get_section" (get_section this_props) in
  let server := tool_if (shouldRegisterTool cls "update_section")
                  server "update_section" (update_section this_props) in
  let server := tool_if (shouldRegisterTool cls "delete_section")
                  server "delete_section" (delete_section this_props) in
  let server := server_tool server "create_task" (create_task this_props) in
  let server := server_tool server "get_tasks" (get_tasks this_props) in
  let server := tool_if (shouldRegisterTool cls "get_task")
                  server "get_task" (get_task this_props) in
  let server := server_tool server "update_task" (update_task this_props) in
  let server := server_tool server "delete_task" (delete_task this_props) in
  let server := server_tool server "close_task" (close_task this_props) in
  let server := server_tool server "reopen_task" (reopen_task this_props) in
  let server := server_tool server "move_task" (move_task this_props) in
  let server := tool_if (shouldRegisterTool cls "quick_add_task")
                  server "quick_add_task" (quick_add_task this_props) in
  let server :=
    tool_if (shouldRegisterTool cls "get_completed_tasks_by_completion_date")
      server "get_completed_tasks_by_completion_date"
      (get_completed_tasks_by_completion_date this_props) in
  let server :=
    tool_if (shouldRegisterTool cls "get_completed_tasks_by_due_date")
      server "get_completed_tasks_by_due_date"
      (get_completed_tasks_by_due_date this_props) in
  let server := tool_if (shouldRegisterTool cls "create_label")
                  server "create_label" (create_label this_props) in
  let server := tool_if (shouldRegisterTool cls "get_labels")
                  server "get_labels" (get_labels this_props) in
  let server := tool_if (shouldRegisterTool cls "get_label")
                  server "get_label" (get_label this_props) in
  let server := tool_if (shouldRegisterTool cls "update_label")
                  server "update_label" (update_label this_props) in
  let server := tool_if (shouldRegisterTool cls "delete_label")
                  server "delete_label" (delete_label this_props) in
  let server := tool_if (shouldRegisterTool cls "get_shared_labels")
                  server "get_shared_labels" (get_shared_labels this_props) in
  let server := tool_if (shouldRegisterTool cls "remove_shared_label")
                  server "remove_shared_label"
                  (remove_shared_label this_props) in
  let server := tool_if (shouldRegisterTool cls "rename_shared_label")
                  server "rename_shared_label"
                  (rename_shared_label this_props) in
  let server := tool_if (shouldRegisterTool cls "create_comment")
                  server "create_comment" (create_comment this_props) in
  let server := tool_if (shouldRegisterTool cls "get_comments")
                  server "get_comments" (get_comments this_props) in
  let server := tool_if (shouldRegisterTool cls "get_comment")
                  server "get_comment" (get_comment this_props) in
  let server := tool_if (shouldRegisterTool cls "update_comment")
                  server "update_comment" (update_comment this_props) in
  let server := tool_if (shouldRegisterTool cls "delete_comment")
                  server "delete_comment" (delete_comment this_props) in
  server.

(** The full catalogue: every name that occurs in a [server.tool] call of
    [init], in source order. *)
Definition catalogue : list string :=
  ["me"; "get_tasks_by_filter"; "create_project"; "get_projects";
   "get_project"; "update_project"; "delete_project"; "archive_project";
   "unarchive_project"; "get_project_collaborators"; "create_section";
   "get_sections"; "get_section"; "update_section"; "delete_section";
   "create_task"; "get_tasks"; "get_task"; "update_task"; "delete_task";
   "close_task"; "reopen_task"; "move_task"; "quick_add_task";
   "get_completed_tasks_by_completion_date";
   "get_completed_tasks_by_due_date"; "create_label"; "get_labels";
   "get_label"; "update_label"; "delete_label"; "get_shared_labels";
   "remove_shared_label"; "rename_shared_label"; "create_comment";
   "get_comments"; "get_comment"; "update_comment"; "delete_comment"].

(** The handlers paired with their names, in the order of [init]. *)
Definition handlers (this_props : Props) : list (string * Handler) :=
  [("me", me this_props);
   ("get_tasks_by_filter", get_tasks_by_filter this_props);
   ("create_project", create_project this_props);
   ("get_projects", get_projects this_props);
   ("get_project", get_project this_props);
   ("update_project", update_project this_props);
   ("delete_project", delete_project this_props);
   ("archive_project", archive_project this_props);
   ("unarchive_project", unarchive_project this_props);
   ("get_project_collaborators", get_project_collaborators this_props);
   ("create_section", create_section this_props);
   ("get_sections", get_sections this_props);
   ("get_section", get_section this_props);
   ("update_section", update_section this_props);
   ("delete_section", delete_section this_props);
   ("create_task", create_task this_props);
   ("get_tasks", get_tasks this_props);
   ("get_task", get_task this_props);
   ("update_task", update_task this_props);
   ("delete_task", delete_task this_props);
   ("close_task", close_task this_props);
   ("reopen_task", reopen_task this_props);
   ("move_task", move_task this_props);
   ("quick_add_task", quick_add_task this_props);
   ("get_completed_tasks_by_completion_date",
    get_completed_tasks_by_completion_date this_props);
   ("get_completed_tasks_by_due_date",
    get_completed_tasks_by_due_date this_props);
   ("create_label", create_label this_props);
   ("get_labels", get_labels this_props);
   ("get_label", get_label this_props);
   ("update_label", update_label this_props);
   ("delete_label", delete_label this_props);
   ("get_shared_labels", get_shared_labels this_props);
   ("remove_shared_label", remove_shared_label this_props);
   ("rename_shared_label", rename_shared_label this_props);
   ("create_comment", create_comment this_props);
   ("get_comments", get_comments this_props);
   ("get_comment", get_comment this_props);
   ("update_comment", update_comment this_props);
   ("delete_comment", delete_comment this_props)].

(** The names [init] registers without consulting the filter. *)
Definition unguarded : list string :=
  ["get_tasks_by_filter"; "create_project"; "get_projects"; "get_project";
   "update_project"; "get_sections"; "create_task"; "get_tasks";
   "update_task"; "delete_task"; "close_task"; "reopen_task"; "move_task"].

(** ** Specification-side notions *)

(** [quiet m]: running [m] calls no client operation and sends no
    request. *)
Definition quiet {A} (m : M A) : Prop :=
  forall env st,
    calls (snd (m env st)) = calls st /\
    requests (snd (m env st)) = requests st.

(** The query as the specification words it: the parameters with a
    truthy value, in order, each value converted to a string. *)
Definition truthy_query (params : Obj) : URLSearchParams.t :=
  map (fun kv => (fst kv, ToString (snd kv)))
    (List.filter (fun kv => truthy (snd kv)) params).

(** ** Sample worlds *)

Definition sample_props : Props :=
  {| full_name := "Ada"; email := "ada@example.org"; accessToken := "token" |}.

Definition sample_uuid (n : nat) : string :=
  "uuid-" +:+ Number_toString (Z.of_nat n).

(** The upstream answers every request with status 200 and the JSON
    body [v]. *)
Definition world_json (v : value) : Env := {|
  fetch := fun _ =>
    inr (Response.mk true 200 (inr (template_opt (JSON_stringify v 0)))
           (inr v));
  randomUUID := sample_uuid
|}.

(** The upstream answers every request with the non-success status [s]
    and the raw body [b], which is not JSON. *)
Definition world_status (s : Z) (b : string) : Env := {|
  fetch := fun _ =>
    inr (Response.mk false s (inr b)
           (inl (JsError "Unexpected token in JSON")));
  randomUUID := sample_uuid
|}.

(** Two tasks as the REST API lists them. *)
Definition sample_listing : list value :=
  [VObj [("id", VStr "1"); ("content", VStr "Buy milk");
         ("description", VStr "2%");
         ("due", VObj [("date", VStr "2025-01-31");
                       ("is_recurring", VBool false)])];
   VObj [("id", VStr "2"); ("content", VStr "Call mom");
         ("description", VStr ""); ("due", VNull)]].

(** ** The filtered task query, in closed form *)

(** What [format_task] yields for a task that is neither [null] nor
    [undefined]: [task.due?.date || null] keeps a truthy date only. *)
Definition project_task (task : value) : value :=
  let date := prop (prop task "due") "date" in
  VObj [("content", prop task "content");
        ("description", prop task "description");
        ("due_date", if truthy date then date else VNull)].

(** The projection as the specification words it: [due_date] is
    [due.date] when present and [null] otherwise. *)
Definition project_task_by_presence (task : value) : value :=
  VObj [("content", prop task "content");
        ("description", prop task "description");
        ("due_date",
         match prop task "due" with
         | VObj due =>
             if Object.has due "date" then Object.get due "date" else VNull
         | _ => VNull
         end)].

(** ** Optional parameters and their guards *)

(** How a handler decides whether an optional parameter goes into the
    object it hands to the client: [if (x) o.x = x], or
    [if (x !== undefined) o.x = x], or an unconditional [{ x }]. *)
Inductive Guard : Type := IfTruthy | IfDefined | Unguarded.

Definition passes (g : Guard) (v : value) : bool :=
  match g with
  | IfTruthy => truthy v
  | IfDefined => negb (value_is_undefined v)
  | Unguarded => true
  end.

(** Every handler with optional parameters, and the guard the source
    puts on each of them. *)
Definition optional_parameters (this_props : Props)
  : list (string * Handler * list (string * Guard)) :=
  [("create_project", create_project this_props,
    [("description", Unguarded); ("parent_id", Unguarded);
     ("color", Unguarded); ("is_favorite", Unguarded);
     ("view_style", Unguarded)]);
   ("get_projects", get_projects this_props,
    [("cursor", IfTruthy); ("limit", IfTruthy)]);
   ("update_project", update_project this_props,
    [("name", IfDefined); ("description", IfDefined); ("color", IfDefined);
     ("is_favorite", IfDefined); ("view_style", IfDefined)]);
   ("create_section", create_section this_props, [("order", Unguarded)]);
   ("get_sections", get_sections this_props,
    [("project_id", IfTruthy); ("cursor", IfTruthy); ("limit", IfTruthy)]);
   ("create_task", create_task this_props,
    [("description", IfTruthy); ("project_id", IfTruthy);
     ("section_id", IfTruthy); ("parent_id", IfTruthy);
     ("labels", IfTruthy); ("priority", IfTruthy);
     ("due_string", IfTruthy); ("due_date", IfTruthy);
     ("due_datetime", IfTruthy); ("deadline_date", IfTruthy);
     ("assignee_id", IfTruthy)]);
   ("get_tasks", get_tasks this_props,
    [("project_id", IfTruthy); ("section_id", IfTruthy);
     ("parent_id", IfTruthy); ("label", IfTruthy); ("ids", IfTruthy);
     ("cursor", IfTruthy); ("limit", IfTruthy)]);
   ("update_task", update_task this_props,
    [("content", IfDefined); ("description", IfDefined);
     ("labels", IfDefined); ("priority", IfDefined);
     ("due_string", IfDefined); ("due_date", IfDefined);
     ("due_datetime", IfDefined); ("deadline_date", IfDefined);
     ("assignee_id", IfDefined)]);
   ("move_task", move_task this_props,
    [("project_id", IfTruthy); ("section_id", IfTruthy);
     ("parent_id", IfTruthy)]);
   ("quick_add_task", quick_add_task this_props,
    [("note", IfTruthy); ("reminder", IfTruthy);
     ("auto_reminder", IfDefined)]);
   ("get_completed_tasks_by_completion_date",
    get_completed_tasks_by_completion_date this_props,
    [("project_id", IfTruthy); ("section_id", IfTruthy);
     ("parent_id", IfTruthy); ("filter_query", IfTruthy);
     ("filter_lang", IfTruthy); ("workspace_id", IfTruthy);
     ("limit", IfTruthy); ("cursor", IfTruthy)]);
   ("get_completed_tasks_by_due_date",
    get_completed_tasks_by_due_date this_props,
    [("project_id", IfTruthy); ("section_id", IfTruthy);
     ("parent_id", IfTruthy); ("filter_query", IfTruthy);
     ("filter_lang", IfTruthy); ("workspace_id", IfTruthy);
     ("limit", IfTruthy); ("cursor", IfTruthy)]);
   ("create_label", create_label this_props,
    [("color", IfTruthy); ("order", IfDefined); ("is_favorite", IfDefined)]);
   ("get_labels", get_labels this_props,
    [("cursor", IfTruthy); ("limit", IfTruthy)]);
   ("update_label", update_label this_props,
    [("name", IfDefined); ("color", IfDefined); ("order", IfDefined);
     ("is_favorite", IfDefined)]);
   ("get_shared_labels", get_shared_labels this_props,
    [("omit_personal", IfDefined)]);
   ("create_comment", create_comment this_props,
    [("task_id", IfTruthy); ("project_id", IfTruthy);
     ("attachment", IfTruthy)]);
   ("get_comments", get_comments this_props,
    [("task_id", IfTruthy); ("project_id", IfTruthy); ("cursor", IfTruthy);
     ("limit", IfTruthy)])].

(** The object a client call was given: query, body or destination. *)
Definition call_object (c : ClientCall) : option Obj :=
  match c with
  | CallGet _ params => params
  | CallPost _ data => data
  | CallDelete _ => None
  | CallMoveTask _ destination => Some destination
  end.

(** [o] treats the parameter [k] of the arguments [a] as the guard [g]
    says. *)
Definition follows_guard (a o : Obj) (kg : string * Guard) : Prop :=
  let v := Object.get a (fst kg) in
  Object.has o (fst kg) = passes (snd kg) v /\
  Object.get o (fst kg) = (if passes (snd kg) v then v else VUndefined).

(** ** Failures raised and answered *)

(** [tidy m]: a run of [m] that returns raised nothing, and a run that
    fails raised exactly the failure it ends with. *)
Definition tidy {A} (m : M A) : Prop :=
  forall env st,
    match m env st with
    | (inr _, st') => raised st' = raised st
    | (inl e, st') => raised st' = (raised st ++ [e])%list
    end.

(** The upstream refuses every request with the non-success status [s]
    and the raw body [b]. *)
Definition upstream_refuses (env : Env) (s : Z) (b : string) : Prop :=
  forall req, exists resp,
    fetch env req = inr resp /\ Response.ok resp = false /\
    Response.status resp = s /\ Response.text resp = inr b.

(** The message of the client's failure for a refused request; [api] is
    [Todoist API] for the REST operations and [Todoist Sync API] for the
    move command. *)
Definition refusal (api : string) (s : Z) (b : string) : string :=
  api +:+ " error (" +:+ ToString (VNum s) +:+ "): " +:+ b.

Definition apis : list string := ["Todoist API"; "Todoist Sync API"].

(** [refusable m]: when the upstream refuses, [m] either calls no client
    operation or fails with the client's refusal. *)
Definition refusable {A} (m : M A) : Prop :=
  forall env st s b,
    upstream_refuses env s b ->
    calls (snd (m env st)) = calls st \/
    exists api, In api apis /\ fst (m env st) = inl (JsError (refusal api s b)).

(** [normalizes action m]: [m] always returns a result; a failure raised
    on the way is answered by [isError: true] and the text
    [Error <action>: <message>]; a refusal of the upstream shows its
    status and body in that text. *)
Definition normalizes (action : string) (m : M ToolResult) : Prop :=
  forall env st, exists r st',
    m env st = (inr r, st') /\
    (raised st' = raised st \/
     exists e, raised st' = (raised st ++ [e])%list /\
               r = result_error ("Error " +:+ action +:+ ": "
                                 +:+ error_message e)) /\
    (forall s b,
        upstream_refuses env s b ->
        calls st' = calls st \/
        exists api, In api apis /\
                    r = result_error ("Error " +:+ action +:+ ": "
                                      +:+ refusal api s b)).

(** The action each handler names in the text of its catch block;
    [me] has no catch block. *)
Definition actions : list (string * string) :=
  [("get_tasks_by_filter", "fetching tasks");
   ("create_project", "creating project");
   ("get_projects", "fetching projects");
   ("get_project", "fetching project");
   ("update_project", "updating project");
   ("delete_project", "deleting project");
   ("archive_project", "archiving project");
   ("unarchive_project", "unarchiving project");
   ("get_project_collaborators", "fetching collaborators");
   ("create_section", "creating section");
   ("get_sections", "fetching sections");
   ("get_section", "fetching section");
   ("update_section", "updating section");
   ("delete_section", "deleting section");
   ("create_task", "creating task");
   ("get_tasks", "fetching tasks");
   ("get_task", "fetching task");
   ("update_task", "updating task");
   ("delete_task", "deleting task");
   ("close_task", "completing task");
   ("reopen_task", "reopening task");
   ("move_task", "moving task");
   ("quick_add_task", "creating quick task");
   ("get_completed_tasks_by_completion_date", "fetching completed tasks");
   ("get_completed_tasks_by_due_date",
    "fetching completed tasks by due date");
   ("create_label", "creating label");
   ("get_labels", "fetching labels");
   ("get_label", "fetching label");
   ("update_label", "updating label");
   ("delete_label", "deleting label");
   ("get_shared_labels", "fetching shared labels");
   ("remove_shared_label", "removing shared label");
   ("rename_shared_label", "renaming shared label");
   ("create_comment", "creating comment");
   ("get_comments", "fetching comments");
   ("get_comment", "fetching comment");
   ("update_comment", "updating comment");
   ("delete_comment", "deleting comment")].

Fixpoint assoc (l : list (string * string)) (k : string) : string :=
  match l with
  | [] => ""
  | (k', v) :: l' => if String.eqb k' k then v else assoc l' k
  end.

Definition action_of (tool : string) : string := assoc actions tool.

(** ** Notions for the client operations and the handlers' footprint *)

(** [settles m req]: [m] hands [req] to [fetch], once, and ends as the
    response decides: a rejected [fetch] or body read is the failure; a
    non-success response is the client's error with status and body; a
    204 is [null]; any other success is the parsed body. *)
Definition settles (m : M value) (req : Request.t) : Prop :=
  forall env st,
    requests (snd (m env st)) = (requests st ++ [req])%list /\
    match fetch env req with
    | inl e => fst (m env st) = inl e
    | inr resp =>
        if Response.ok resp then
          if Response.status resp =? 204 then fst (m env st) = inr VNull
          else fst (m env st) = Response.json resp
        else
          match Response.text resp with
          | inr b =>
              fst (m env st)
              = inl (JsError ("Todoist API error ("
                              +:+ ToString (VNum (Response.status resp))
                              +:+ "): " +:+ b))
          | inl e => fst (m env st) = inl e
          end
    end.

(** [still m]: running [m] draws no uuid. *)
Definition still {A} (m : M A) : Prop :=
  forall env st, drawn (snd (m env st)) = drawn st.

(** A request as every client operation builds it: the session's bearer
    token, JSON accepted, one of the three methods, and a JSON body with
    its content type exactly for [POST]. *)
Definition well_formed_request (token : string) (req : Request.t) : Prop :=
  In ("Authorization", "Bearer " +:+ token) (Request.headers req) /\
  In ("Accept", "application/json") (Request.headers req) /\
  In (Request.method req) ["GET"; "POST"; "DELETE"] /\
  (Request.method req = "POST" <->
   In ("Content-Type", "application/json") (Request.headers req)) /\
  (Request.method req = "POST" <-> is_Some (Request.body req)).

(** [footprint token m]: a run of [m] sends no request and draws no
    uuid, or sends exactly one well-formed request, either to the sync
    endpoint with one uuid drawn, or under the REST base with none. *)
Definition footprint {A} (token : string) (m : M A) : Prop :=
  forall env st,
    (requests (snd (m env st)) = requests st /\
     drawn (snd (m env st)) = drawn st) \/
    exists req,
      requests (snd (m env st)) = (requests st ++ [req])%list /\
      well_formed_request token req /\
      ((Request.url req = SYNC_API_URL /\
        drawn (snd (m env st)) = S (drawn st)) \/
       (String.prefix API_BASE_URL (Request.url req) = true /\
        drawn (snd (m env st)) = drawn st)).

(** The upstream answers every request with a success status and the
    payload [v]: a parsed body [v], or a 204 and [v] is [null]. *)
Definition upstream_answers (env : Env) (v : value) : Prop :=
  forall req, exists resp,
    fetch env req = inr resp /\ Response.ok resp = true /\
    ((Response.status resp <> 204 /\ Response.json resp = inr v) \/
     (Response.status resp = 204 /\ v = VNull)).

(** The upstream answers every request with a success status other than
    204 and a body whose parsing fails with [e]. *)
Definition upstream_garbles (env : Env) (e : Thrown) : Prop :=
  forall req, exists resp,
    fetch env req = inr resp /\ Response.ok resp = true /\
    Response.status resp <> 204 /\ Response.json resp = inl e.

(** The handlers whose text is [JSON.stringify(payload, null, 2)] for the
    payload of their client operation. *)
Definition payload_tools (this_props : Props) : list (string * Handler) :=
  [("create_project", create_project this_props);
   ("get_projects", get_projects this_props);
   ("get_project", get_project this_props);
   ("update_project", update_project this_props);
   ("get_project_collaborators", get_project_collaborators this_props);
   ("create_section", create_section this_props);
   ("get_sections", get_sections this_props);
   ("get_section", get_section this_props);
   ("update_section", update_section this_props);
   ("create_task", create_task this_props);
   ("get_tasks", get_tasks this_props);
   ("get_task", get_task this_props);
   ("update_task", update_task this_props);
   ("quick_add_task", quick_add_task this_props);
   ("get_completed_tasks_by_completion_date",
    get_completed_tasks_by_completion_date this_props);
   ("get_completed_tasks_by_due_date",
    get_completed_tasks_by_due_date this_props);
   ("create_label", create_label this_props);
   ("get_labels", get_labels this_props);
   ("get_label", get_label this_props);
   ("update_label", update_label this_props);
   ("get_shared_labels", get_shared_labels this_props);
   ("create_comment", create_comment this_props);
   ("get_comments", get_comments this_props);
   ("get_comment", get_comment this_props);
   ("update_comment", update_comment this_props)].

(** The handlers that discard the payload and answer with a fixed
    confirmation. *)
Definition confirmations (this_props : Props)
  : list (string * Handler * string) :=
  [("delete_project", delete_project this_props,
    "Project deleted successfully");
   ("archive_project", archive_project this_props,
    "Project archived successfully");
   ("unarchive_project", unarchive_project this_props,
    "Project unarchived successfully");
   ("delete_section", delete_section this_props,
    "Section deleted successfully");
   ("delete_task", delete_task this_props, "Task deleted successfully");
   ("close_task", close_task this_props, "Task completed successfully");
   ("reopen_task", reopen_task this_props, "Task reopened successfully");
   ("delete_label", delete_label this_props, "Label deleted successfully");
   ("remove_shared_label", remove_shared_label this_props,
    "Shared label removed successfully");
   ("rename_shared_label", rename_shared_label this_props,
    "Shared label renamed successfully");
   ("delete_comment", delete_comment this_props,
    "Comment deleted successfully")].

(** The handlers that list or query with [get], the path they request
    and the parameter names of their query, in the order of the source. *)
Definition list_queries (this_props : Props)
  : list (string * Handler * string * list string) :=
  [("get_tasks_by_filter", get_tasks_by_filter this_props, "/tasks",
    ["filter"]);
   ("get_projects", get_projects this_props, "/projects",
    ["cursor"; "limit"]);
   ("get_sections", get_sections this_props, "/sections",
    ["project_id"; "cursor"; "limit"]);
   ("get_tasks", get_tasks this_props, "/tasks",
    ["project_id"; "section_id"; "parent_id"; "label"; "ids"; "cursor";
     "limit"]);
   ("get_completed_tasks_by_completion_date",
    get_completed_tasks_by_completion_date this_props,
    "/tasks/completed/by_completion_date",
    ["since"; "until"; "project_id"; "section_id"; "parent_id";
     "filter_query"; "filter_lang"; "workspace_id"; "limit"; "cursor"]);
   ("get_completed_tasks_by_due_date",
    get_completed_tasks_by_due_date this_props,
    "/tasks/completed/by_due_date",
    ["since"; "until"; "project_id"; "section_id"; "parent_id";
     "filter_query"; "filter_lang"; "workspace_id"; "limit"; "cursor"]);
   ("get_labels", get_labels this_props, "/labels", ["cursor"; "limit"]);
   ("get_shared_labels", get_shared_labels this_props, "/labels/shared",
    ["omit_personal"]);
   ("get_comments", get_comments this_props, "/comments",
    ["task_id"; "project_id"; "cursor"; "limit"])].

(** The arguments [a] read at the names [keys], as one object. *)
Definition pick (a : Obj) (keys : list string) : Obj :=
  map (fun k => (k, Object.get a k)) keys.

(** The arguments of the move command for the handler's arguments [a]:
    the task id, then the destinations that are truthy, in the order
    project, section, parent. *)
Definition move_args (a : Obj) : Obj :=
  ("id", Object.get a "task_id")
  :: List.filter (fun kv => truthy (snd kv))
       (pick a ["project_id"; "section_id"; "parent_id"]).

(** The body of the sync request for one [item_move] command. *)
Definition move_body (uuid : string) (args : Obj) : option string :=
  JSON_stringify
    (VObj [("commands",
            VArr [VObj [("type", VStr "item_move"); ("uuid", VStr uuid);
                        ("args", VObj args)]])]) 0.

(** The entries of [o] whose value is not [undefined]. *)
Definition defined_entries (o : Obj) : Obj :=
  List.filter (fun kv => negb (value_is_undefined (snd kv))) o.

(** The upstream answers every request with 204 and no body. *)
Definition world_no_content : Env := {|
  fetch := fun _ =>
    inr (Response.mk true 204 (inr "")
           (inl (JsError "Unexpected end of JSON input")));
  randomUUID := sample_uuid
|}.

(** The characters an encoded query component may contain: the ones the
    form-urlencoded serializer leaves alone, [+] for a space, and [%]
    before two hexadecimal digits. *)
Definition query_safe (c : ascii) : bool :=
  URLSearchParams.unreserved c || Ascii.eqb c "+" || Ascii.eqb c "%".

(** The two bytes of the UTF-8 encoding of e-acute. *)
Definition e_acute : string :=
  String (ascii_of_nat 195) (String (ascii_of_nat 169) "").

(** * Properties *)

(** ** The registry built by [init] *)

Section Registry.

Lemma catalogue_handlers (p : Props) : map fst (handlers p) = catalogue.
Proof. reflexivity. Qed.

Lemma Set_has_true (s : gset string) (x : string) :
  Set_has s x = true <-> x ∈ s.
Proof. unfold Set_has. apply bool_decide_eq_true. Qed.

Lemma lookup_server_tool (s : Server) (n k : string) (h : Handler) :
  server_tool s n h !! k = if decide (n = k) then Some h else s !! k.
Proof. unfold server_tool. apply lookup_insert. Qed.

Lemma lookup_tool_if (c : bool) (s : Server) (n k : string) (h : Handler) :
  tool_if c s n h !! k
  = if decide (n = k) then (if c then Some h else s !! k) else s !! k.
Proof.
  unfold tool_if. destruct c.
  - rewrite lookup_server_tool. reflexivity.
  - destruct (decide (n = k)); reflexivity.
Qed.

(** One registration step, read backwards. *)
Lemma server_tool_inv (s : Server) (n k : string) (h g : Handler) :
  server_tool s n h !! k = Some g -> (n = k /\ h = g) \/ s !! k = Some g.
Proof.
  rewrite lookup_server_tool. destruct (decide (n = k)); intros H.
  - left. split; [assumption | congruence].
  - right. assumption.
Qed.

Lemma tool_if_inv (c : bool) (s : Server) (n k : string) (h g : Handler) :
  tool_if c s n h !! k = Some g ->
  (c = true /\ n = k /\ h = g) \/ s !! k = Some g.
Proof.
  unfold tool_if. destruct c; intros H.
  - apply server_tool_inv in H. destruct H as [[? ?] | ?]; auto.
  - right. assumption.
Qed.

Lemma server_tool_here (s : Server) (k : string) (h : Handler) :
  is_Some (server_tool s k h !! k).
Proof. rewrite lookup_server_tool, decide_True by reflexivity. eauto. Qed.

Lemma server_tool_mono (s : Server) (n k : string) (h : Handler) :
  is_Some (s !! k) -> is_Some (server_tool s n h !! k).
Proof.
  rewrite lookup_server_tool. destruct (decide (n = k)); eauto.
Qed.

Lemma tool_if_here (c : bool) (s : Server) (k : string) (h : Handler) :
  c = true -> is_Some (tool_if c s k h !! k).
Proof. intros ->. apply server_tool_here. Qed.

Lemma tool_if_mono (c : bool) (s : Server) (n k : string) (h : Handler) :
  is_Some (s !! k) -> is_Some (tool_if c s n h !! k).
Proof. destruct c; [apply server_tool_mono | trivial]. Qed.

End Registry.

(** Find the registration of the name looked up, outermost first. *)
Ltac registered_here :=
  repeat first
    [ apply server_tool_here
    | apply tool_if_here; assumption
    | apply server_tool_mono
    | apply tool_if_mono ].

Ltac registry_step H :=
  first
    [ apply tool_if_inv in H; destruct H as [(_ & <- & <-) | H]
    | apply server_tool_inv in H; destruct H as [(<- & <-) | H] ].

(** Every registered handler is one of the thirty-nine of [handlers]. *)
Lemma init_lookup_handlers (cls : Statics) (p : Props) (n : string)
  (h : Handler) :
  init cls p !! n = Some h -> In (n, h) (handlers p).
Proof.
  unfold init. intros H.
  repeat (registry_step H; [ unfold handlers; simpl; tauto | ]).
  rewrite lookup_empty in H. discriminate.
Qed.

(** Which names are registered, for any configuration. *)
Lemma init_registered (cls : Statics) (p : Props) (n : string) :
  is_Some (init cls p !! n) <->
  In n unguarded \/ (In n catalogue /\ shouldRegisterTool cls n = true).
Proof.
  unfold init. split.
  - intros [h H].
    repeat (first
      [ apply tool_if_inv in H;
        destruct H as [(Hc & <- & _) | H];
        [ right; split; [ unfold catalogue; simpl; tauto | exact Hc ] | ]
      | apply server_tool_inv in H;
        destruct H as [(<- & _) | H];
        [ left; unfold unguarded; simpl; tauto | ] ]).
    rewrite lookup_empty in H. discriminate.
  - intros [H | [H Hc]].
    + unfold unguarded in H. simpl in H.
      repeat (destruct H as [<- | H]; [ registered_here | ]).
      contradiction.
    + unfold catalogue in H. simpl in H.
      repeat (destruct H as [<- | H]; [ registered_here | ]).
      contradiction.
Qed.

Lemma Set_has_false (s : gset string) (x : string) :
  Set_has s x = false <-> x ∉ s.
Proof. unfold Set_has. apply bool_decide_eq_false. Qed.

Lemma unguarded_in_catalogue (n : string) : In n unguarded -> In n catalogue.
Proof.
  unfold unguarded, catalogue. simpl. intros H.
  repeat (destruct H as [<- | H]; [ tauto | ]). contradiction.
Qed.

Lemma unguarded_essential (n : string) :
  In n unguarded -> n ∈ ESSENTIAL_TOOLS TodoistMCP.
Proof.
  intros H. apply Set_has_true. unfold unguarded in H. simpl in H.
  repeat (destruct H as [<- | H]; [ vm_compute; reflexivity | ]).
  contradiction.
Qed.

(** In minimal mode the registered names are the essential names of the
    catalogue, as soon as the unguarded names are essential. *)
Lemma minimal_mode_registered (cls : Statics) (p : Props) (n : string) :
  MINIMAL_TOOL_SET cls = true ->
  (forall m, In m unguarded -> m ∈ ESSENTIAL_TOOLS cls) ->
  n ∈ dom (init cls p) <-> In n catalogue /\ n ∈ ESSENTIAL_TOOLS cls.
Proof.
  intros Hmin Hun. rewrite elem_of_dom, init_registered.
  unfold shouldRegisterTool. rewrite Hmin. simpl. rewrite Set_has_true.
  split.
  - intros [H | [H1 H2]]; [ | tauto ].
    split; [ apply unguarded_in_catalogue | apply Hun ]; assumption.
  - tauto.
Qed.

(** C4. [shouldRegisterTool] answers [true] exactly when minimal mode is
    off or the name belongs to the essential set; it is a total function
    of the name and of the two static fields. *)
Theorem shouldRegisterTool_spec (cls : Statics) (toolName : string) :
  shouldRegisterTool cls toolName = true <->
  MINIMAL_TOOL_SET cls = false \/ toolName ∈ ESSENTIAL_TOOLS cls.
Proof.
  unfold shouldRegisterTool.
  rewrite orb_true_iff, negb_true_iff, Set_has_true. reflexivity.
Qed.

(** C5. Under the compiled configuration (minimal mode on), every name
    registered by [init], guarded or not, is essential, and every
    essential name of the catalogue is registered. *)
Theorem minimal_mode_subset_both_ways (p : Props) :
  MINIMAL_TOOL_SET TodoistMCP = true /\
  (forall n, n ∈ dom (init TodoistMCP p) -> n ∈ ESSENTIAL_TOOLS TodoistMCP) /\
  (forall n, n ∈ ESSENTIAL_TOOLS TodoistMCP -> In n catalogue ->
             n ∈ dom (init TodoistMCP p)).
Proof.
  split; [ reflexivity | ].
  split; intros n.
  - intros H.
    apply (minimal_mode_registered TodoistMCP p n eq_refl unguarded_essential)
      in H.
    tauto.
  - intros H1 H2.
    apply (minimal_mode_registered TodoistMCP p n eq_refl unguarded_essential).
    tauto.
Qed.

(** C10. With the compiled configuration the tool [me] is not
    registered: minimal mode is on, [me] is not an essential name, and
    its registration is exactly what [shouldRegisterTool] says, for any
    configuration. The handler itself never calls the client. *)
Theorem me_not_registered_by_default (p : Props) :
  MINIMAL_TOOL_SET TodoistMCP = true /\
  ("me" ∉ ESSENTIAL_TOOLS TodoistMCP) /\
  init TodoistMCP p !! "me" = None /\
  (forall cls, is_Some (init cls p !! "me") <->
               shouldRegisterTool cls "me" = true) /\
  (forall a env st, exists r,
      me p a env st = (inr r, st) /\ isError r = None).
Proof.
  assert (Hme : forall cls, is_Some (init cls p !! "me") <->
                            shouldRegisterTool cls "me" = true).
  { intros cls. rewrite init_registered. split.
    - intros [H | [_ H]]; [ | exact H ].
      unfold unguarded in H. simpl in H.
      repeat (destruct H as [H | H]; [ discriminate H | ]). contradiction.
    - intros H. right. split; [ unfold catalogue; simpl; tauto | exact H ]. }
  assert (Hne : "me" ∉ ESSENTIAL_TOOLS TodoistMCP).
  { apply Set_has_false. vm_compute. reflexivity. }
  split; [ reflexivity | ]. split; [ exact Hne | ].
  split; [ | split; [ exact Hme | ] ].
  - apply eq_None_not_Some. rewrite Hme.
    unfold shouldRegisterTool. simpl.
    apply not_true_iff_false, Set_has_false, Hne.
  - intros a env st. eexists. split; reflexivity.
Qed.

(** ** The move_task precondition *)

Lemma move_task_without_destination (p : Props) (a : Obj) (env : Env)
  (st : State) :
  truthy (Object.get a "project_id") = false ->
  truthy (Object.get a "section_id") = false ->
  truthy (Object.get a "parent_id") = false ->
  move_task p a env st
  = (inr (result_error
            "Error: At least one destination must be provided (project_id, section_id, or parent_id)"),
     st).
Proof.
  intros H1 H2 H3. unfold move_task, try_catch.
  rewrite H1, H2, H3. reflexivity.
Qed.

(** C2. When none of [project_id], [section_id], [parent_id] is supplied
    (each reads as [undefined]), [move_task] answers with [isError: true]
    and calls no client operation and sends no request. *)
Theorem move_task_no_destination_no_client_call (p : Props) (a : Obj)
  (env : Env) (st : State) :
  Object.get a "project_id" = VUndefined ->
  Object.get a "section_id" = VUndefined ->
  Object.get a "parent_id" = VUndefined ->
  exists r st',
    move_task p a env st = (inr r, st') /\
    isError r = Some true /\
    calls st' = calls st /\ requests st' = requests st.
Proof.
  intros H1 H2 H3.
  eexists. exists st. split.
  - apply move_task_without_destination; [ rewrite H1 | rewrite H2 | rewrite H3 ];
      reflexivity.
  - repeat split.
Qed.

(** C9. Empty strings for the three destinations count as no
    destination: the test is on truthiness, not on presence. *)
Theorem move_task_empty_strings_are_absent (p : Props) (a : Obj)
  (env : Env) (st : State) :
  Object.get a "project_id" = VStr "" ->
  Object.get a "section_id" = VStr "" ->
  Object.get a "parent_id" = VStr "" ->
  exists r st',
    move_task p a env st = (inr r, st') /\
    isError r = Some true /\
    calls st' = calls st /\ requests st' = requests st.
Proof.
  intros H1 H2 H3.
  eexists. exists st. split.
  - apply move_task_without_destination; [ rewrite H1 | rewrite H2 | rewrite H3 ];
      reflexivity.
  - repeat split.
Qed.

(** ** Reasoning about [M] *)

Section MonadFacts.

Context {A B : Type}.

Lemma bind_inr (m : M A) (k : A -> M B) env st a st' :
  m env st = (inr a, st') -> bind m k env st = k a env st'.
Proof. unfold bind. intros ->. reflexivity. Qed.

Lemma bind_inl (m : M A) (k : A -> M B) env st e st' :
  m env st = (inl e, st') -> bind m k env st = (inl e, st').
Proof. unfold bind. intros ->. reflexivity. Qed.

Lemma bind_ret_snd (m : M A) (f : A -> B) env st :
  snd (bind m (fun x => ret (f x)) env st) = snd (m env st).
Proof. unfold bind, ret. destruct (m env st) as [[e | a] st']; reflexivity. Qed.

Lemma try_catch_ret_snd (m : M A) (f : Thrown -> A) env st :
  snd (try_catch m (fun e => ret (f e)) env st) = snd (m env st).
Proof.
  unfold try_catch, ret. destruct (m env st) as [[e | a] st']; reflexivity.
Qed.

Lemma try_catch_inr (m : M A) (k : Thrown -> M A) env st a st' :
  m env st = (inr a, st') -> try_catch m k env st = (inr a, st').
Proof. unfold try_catch. intros ->. reflexivity. Qed.

Lemma try_catch_inl (m : M A) (k : Thrown -> M A) env st e st' :
  m env st = (inl e, st') -> try_catch m k env st = k e env st'.
Proof. unfold try_catch. intros ->. reflexivity. Qed.

End MonadFacts.


Section Quiet.

Context {A B : Type}.

Lemma quiet_ret (a : A) : quiet (ret a).
Proof. intros env st. split; reflexivity. Qed.

Lemma quiet_throw (e : Thrown) : quiet (@throw A e).
Proof. intros env st. split; reflexivity. Qed.

Lemma quiet_await (p : Thrown + A) : quiet (await p).
Proof. destruct p; [ apply quiet_throw | apply quiet_ret ]. Qed.

Lemma quiet_bind (m : M A) (k : A -> M B) :
  quiet m -> (forall a, quiet (k a)) -> quiet (bind m k).
Proof.
  intros Hm Hk env st. unfold bind.
  specialize (Hm env st). destruct (m env st) as [[e | a] st']; simpl in *.
  - exact Hm.
  - destruct (Hk a env st') as [H1 H2]. destruct Hm as [H3 H4].
    split; congruence.
Qed.

End Quiet.

Lemma quiet_member (v : value) (k : string) : quiet (member v k).
Proof.
  destruct v; first [ apply quiet_throw | apply quiet_ret ].
Qed.

Lemma quiet_mapM {A B} (f : A -> M B) (l : list A) :
  (forall x, quiet (f x)) -> quiet (mapM f l).
Proof.
  intros Hf. induction l as [| x l IH]; simpl.
  - apply quiet_ret.
  - apply quiet_bind; [ apply Hf | intros y ].
    apply quiet_bind; [ exact IH | intros ys; apply quiet_ret ].
Qed.

Lemma quiet_handleResponse (response : Response.t) :
  quiet (TodoistClient.handleResponse response).
Proof.
  unfold TodoistClient.handleResponse.
  destruct (negb (Response.ok response)).
  - apply quiet_bind; [ apply quiet_await | intros; apply quiet_throw ].
  - destruct (Response.status response =? 204);
      [ apply quiet_ret | apply quiet_await ].
Qed.

(** What one [fetch] leaves in the logs. *)
Lemma do_fetch_logs (req : Request.t) (env : Env) (st : State) :
  calls (snd (do_fetch req env st)) = calls st /\
  requests (snd (do_fetch req env st)) = (requests st ++ [req])%list.
Proof.
  unfold do_fetch. destruct (fetch env req); split; reflexivity.
Qed.

Lemma fetch_then_quiet_logs {A} (req : Request.t) (k : Response.t -> M A)
  (env : Env) (st : State) :
  (forall r, quiet (k r)) ->
  calls (snd (bind (do_fetch req) k env st)) = calls st /\
  requests (snd (bind (do_fetch req) k env st)) = (requests st ++ [req])%list.
Proof.
  intros Hk. unfold bind.
  pose proof (do_fetch_logs req env st) as [H1 H2].
  destruct (do_fetch req env st) as [[e | r] st']; simpl in *.
  - split; assumption.
  - destruct (Hk r env st') as [H3 H4]. split; congruence.
Qed.

(** ** The client's GET *)


Lemma queryParams_of_truthy_query (params : Obj) :
  TodoistClient.queryParams_of params = truthy_query params.
Proof.
  unfold TodoistClient.queryParams_of, Object.entries, URLSearchParams.new.
  change (truthy_query params) with ([] ++ truthy_query params)%list.
  generalize (@nil (string * string)) as acc.
  induction params as [| [k v] params IH]; intros acc; simpl.
  - unfold truthy_query. simpl. rewrite app_nil_r. reflexivity.
  - rewrite IH. unfold truthy_query, URLSearchParams.append. simpl.
    destruct (truthy v); simpl.
    + rewrite <- app_assoc. reflexivity.
    + reflexivity.
Qed.

Lemma append_nonempty_r (a b : string) : b <> "" -> a +:+ b <> "".
Proof. destruct a; simpl; [ trivial | discriminate ]. Qed.

Lemma toString_nonempty (q : URLSearchParams.t) :
  q <> [] -> URLSearchParams.toString q <> "".
Proof.
  destruct q as [| [k v] q]; [ congruence | intros _ ].
  unfold URLSearchParams.toString. simpl.
  assert (H : URLSearchParams.encode k +:+ "=" +:+ URLSearchParams.encode v <> "").
  { apply append_nonempty_r. discriminate. }
  destruct (map _ q).
  - exact H.
  - intros E. destruct (URLSearchParams.encode k); [ | discriminate E ].
    simpl in E. discriminate E.
Qed.

Lemma get_url_spec (endpoint : string) (params : Obj) :
  TodoistClient.get_url endpoint params
  = match truthy_query params with
    | [] => API_BASE_URL +:+ endpoint
    | q => (API_BASE_URL +:+ endpoint) +:+ "?" +:+ URLSearchParams.toString q
    end.
Proof.
  unfold TodoistClient.get_url. rewrite queryParams_of_truthy_query.
  destruct (truthy_query params) as [| x q] eqn:E.
  - reflexivity.
  - destruct (String.eqb_spec (URLSearchParams.toString (x :: q)) "") as [H | H].
    + exfalso. revert H. apply toString_nonempty. discriminate.
    + reflexivity.
Qed.

Lemma get_logs (this : TodoistClient.t) (endpoint : string)
  (params : option Obj) (env : Env) (st : State) :
  let p := match params with Some p => p | None => [] end in
  calls (snd (TodoistClient.get this endpoint params env st))
  = (calls st ++ [CallGet endpoint params])%list /\
  requests (snd (TodoistClient.get this endpoint params env st))
  = (requests st
     ++ [Request.mk (TodoistClient.get_url endpoint p) "GET"
           (TodoistClient.getHeaders this false) None])%list.
Proof.
  intros p. unfold TodoistClient.get.
  unfold bind at 1. unfold log_call at 1.
  apply (fetch_then_quiet_logs _ _ env
           {| calls := (calls st ++ [CallGet endpoint params])%list;
              requests := requests st; raised := raised st;
              drawn := drawn st |}).
  apply quiet_handleResponse.
Qed.

Lemma truthy_query_In (params : Obj) (k s : string) :
  In (k, s) (truthy_query params) <->
  exists v, In (k, v) params /\ truthy v = true /\ s = ToString v.
Proof.
  unfold truthy_query. rewrite in_map_iff. split.
  - intros [[k' v] [E H]]. simpl in E. injection E as -> <-.
    apply filter_In in H. simpl in H. exists v. tauto.
  - intros (v & H1 & H2 & ->). exists (k, v). split; [ reflexivity | ].
    apply filter_In. simpl. tauto.
Qed.

Lemma list_ascii_of_string_append (a b : string) :
  list_ascii_of_string (a +:+ b)
  = (list_ascii_of_string a ++ list_ascii_of_string b)%list.
Proof. induction a as [| c a IH]; simpl; [ | rewrite IH ]; reflexivity. Qed.

Lemma encode_byte_safe (c : ascii) :
  forallb query_safe (list_ascii_of_string (URLSearchParams.encode_byte c))
  = true.
Proof. destruct c as [[] [] [] [] [] [] [] []]; reflexivity. Qed.

Lemma encode_safe (s : string) :
  forallb query_safe (list_ascii_of_string (URLSearchParams.encode s)) = true.
Proof.
  induction s as [| c s IH]; simpl; [ reflexivity | ].
  rewrite list_ascii_of_string_append, forallb_app, encode_byte_safe, IH.
  reflexivity.
Qed.

(** C7. [get] requests the base URL, the path and the URL-encoded query
    made of exactly the parameters whose value is truthy, in order; a
    falsy value (empty string, 0, false, null, undefined) contributes
    nothing. Encoded names and values consist of letters, digits,
    [*-._], [+] and [%XX] only: a space is sent as [+], every other byte
    as [%] and two upper-case hexadecimal digits. [get_tasks] with cursor
    [abc] and limit 10 requests [/tasks?cursor=abc&limit=10]. *)
Theorem get_sends_exactly_truthy_params (this : TodoistClient.t)
  (endpoint : string) (params : Obj) (env : Env) (st : State) :
  TodoistClient.queryParams_of params = truthy_query params /\
  (forall k s, In (k, s) (TodoistClient.queryParams_of params) <->
               exists v, In (k, v) params /\ truthy v = true
                         /\ s = ToString v) /\
  (forall v, In v [VStr ""; VNum 0; VBool false; VNull; VUndefined] ->
             truthy v = false) /\
  requests (snd (TodoistClient.get this endpoint (Some params) env st))
  = (requests st
     ++ [Request.mk
           (match truthy_query params with
            | [] => API_BASE_URL +:+ endpoint
            | q => (API_BASE_URL +:+ endpoint) +:+ "?"
                   +:+ URLSearchParams.toString q
            end)
           "GET" (TodoistClient.getHeaders this false) None])%list /\
  (forall p,
      requests (snd (get_tasks p [("cursor", VStr "abc"); ("limit", VNum 10)]
                       env st))
      = (requests st
         ++ [Request.mk
               "https://api.todoist.com/rest/v2/tasks?cursor=abc&limit=10"
               "GET"
               (TodoistClient.getHeaders
                  (TodoistClient.new (accessToken p)) false)
               None])%list) /\
  (forall s,
      forallb query_safe (list_ascii_of_string (URLSearchParams.encode s))
      = true) /\
  requests (snd (TodoistClient.get this "/tasks"
                   (Some [("filter", VStr "(today | overdue) & #Work");
                          ("section_id", VStr "");
                          ("label", VStr "a-b_c.d*e~f!g'h/i=j?k%l+m");
                          ("limit", VNum 0);
                          ("q r", VStr e_acute)])
                   env st))
  = (requests st
     ++ [Request.mk
           "https://api.todoist.com/rest/v2/tasks?filter=%28today+%7C+overdue%29+%26+%23Work&label=a-b_c.d*e%7Ef%21g%27h%2Fi%3Dj%3Fk%25l%2Bm&q+r=%C3%A9"
           "GET" (TodoistClient.getHeaders this false) None])%list /\
  (forall p,
      requests (snd (get_tasks_by_filter p
                       [("filter", VStr "p1 & @home/office")] env st))
      = (requests st
         ++ [Request.mk
               "https://api.todoist.com/rest/v2/tasks?filter=p1+%26+%40home%2Foffice"
               "GET"
               (TodoistClient.getHeaders
                  (TodoistClient.new (accessToken p)) false)
               None])%list).
Proof.
  split; [ apply queryParams_of_truthy_query | ].
  split; [ intros k s; rewrite queryParams_of_truthy_query;
           apply truthy_query_In | ].
  split.
  { intros v H. simpl in H.
    repeat (destruct H as [<- | H]; [ reflexivity | ]). contradiction. }
  split; [ | split; [ | split; [ | split ] ] ].
  - rewrite <- get_url_spec.
    apply (get_logs this endpoint (Some params) env st).
  - intros p. unfold get_tasks. rewrite try_catch_ret_snd, bind_ret_snd.
    apply (get_logs _ "/tasks"
             (Some [("cursor", VStr "abc"); ("limit", VNum 10)]) env st).
  - apply encode_safe.
  - apply (get_logs this "/tasks"
             (Some [("filter", VStr "(today | overdue) & #Work");
                    ("section_id", VStr "");
                    ("label", VStr "a-b_c.d*e~f!g'h/i=j?k%l+m");
                    ("limit", VNum 0);
                    ("q r", VStr e_acute)]) env st).
  - intros p. unfold get_tasks_by_filter. cbv zeta.
    rewrite try_catch_ret_snd.
    match goal with
    | |- context [bind ?m ?k env st] =>
        assert (Hq : requests (snd (bind m k env st))
                     = requests (snd (m env st)))
    end.
    { unfold bind at 1.
      destruct (TodoistClient.get _ _ _ env st) as [[e | v] st1];
        [ reflexivity | ].
      refine (proj2 (quiet_bind (tasks_map v format_task) _ _ _ env st1)).
      - unfold tasks_map. destruct v; try apply quiet_throw.
        apply quiet_bind; [ | intros ?; apply quiet_ret ].
        apply quiet_mapM. intros t. unfold format_task.
        repeat (apply quiet_bind; [ apply quiet_member | intros ? ]).
        apply quiet_ret.
      - intros ?. apply quiet_ret. }
    rewrite Hq.
    apply (get_logs _ "/tasks"
             (Some [("filter", VStr "p1 & @home/office")]) env st).
Qed.

(** ** The move command *)

Lemma strict_eq_str_false (v : value) (lit : string) :
  v <> VStr lit -> strict_eq_str v lit = false.
Proof.
  destruct v; simpl; try reflexivity.
  intros H. destruct (String.eqb_spec s lit); [ subst; contradiction | reflexivity ].
Qed.

Lemma member_defined (v : value) (k : string) :
  nullish v = false -> member v k = ret (prop v k).
Proof. destruct v; simpl; intros H; try discriminate; reflexivity. Qed.

Lemma truthy_prop_defined (v : value) (k : string) :
  truthy (prop v k) = true -> nullish v = false.
Proof. destruct v; simpl; intros H; try discriminate; reflexivity. Qed.

Section MoveTask.

Variables (this : TodoistClient.t) (taskId : value) (destination : Obj).
Variables (env : Env) (st : State) (resp : Response.t) (result : value).

Hypothesis sync_answer :
  forall req, Request.url req = SYNC_API_URL -> fetch env req = inr resp.
Hypothesis http_ok : Response.ok resp = true.
Hypothesis parsed : Response.json resp = inr result.

Let uuid : string := randomUUID env (drawn st).
Let entry : value := prop (prop result "sync_status") uuid.

(** After a successful exchange only the status check remains. *)
Lemma moveTask_after_exchange :
  nullish result = false ->
  exists st1,
    raised st1 = raised st /\
    TodoistClient.moveTask this taskId destination env st
    = (if truthy (prop result "sync_status")
          && negb (strict_eq_str entry "ok")
       then throw (JsError ("Move task failed: "
                            +:+ template_opt (JSON_stringify entry 0)))
       else ret result) env st1.
Proof.
  intros Hres. unfold TodoistClient.moveTask.
  unfold bind at 1, log_call at 1.
  unfold bind at 1, crypto_randomUUID at 1.
  cbn [calls requests raised drawn].
  unfold bind at 1, do_fetch at 1.
  rewrite sync_answer by reflexivity.
  cbn [await ret calls requests raised drawn].
  rewrite http_ok. cbn [negb]. rewrite parsed.
  unfold bind at 1. cbn [await ret].
  rewrite (member_defined _ _ Hres).
  unfold bind at 1. cbn [ret].
  eexists. split; [ | reflexivity ]. reflexivity.
Qed.

Lemma moveTask_rejected :
  truthy (prop result "sync_status") = true ->
  entry <> VStr "ok" ->
  exists st',
    TodoistClient.moveTask this taskId destination env st
    = (inl (JsError ("Move task failed: "
                     +:+ template_opt (JSON_stringify entry 0))), st') /\
    raised st' = (raised st ++ [JsError ("Move task failed: "
                     +:+ template_opt (JSON_stringify entry 0))])%list.
Proof.
  intros Hmap Hentry.
  destruct (moveTask_after_exchange (truthy_prop_defined _ _ Hmap))
    as (st1 & Hr & ->).
  rewrite Hmap, (strict_eq_str_false _ _ Hentry). cbn [andb negb].
  eexists. split; [ reflexivity | ]. cbn [raised]. rewrite Hr. reflexivity.
Qed.

Lemma moveTask_accepted :
  truthy (prop result "sync_status") = true ->
  entry = VStr "ok" ->
  exists st',
    TodoistClient.moveTask this taskId destination env st = (inr result, st').
Proof.
  intros Hmap Hentry.
  destruct (moveTask_after_exchange (truthy_prop_defined _ _ Hmap))
    as (st1 & Hr & ->).
  rewrite Hmap, Hentry. eexists. reflexivity.
Qed.

Lemma moveTask_unchecked :
  nullish result = false ->
  truthy (prop result "sync_status") = false ->
  exists st',
    TodoistClient.moveTask this taskId destination env st = (inr result, st').
Proof.
  intros Hres Hmap.
  destruct (moveTask_after_exchange Hres) as (st1 & Hr & ->).
  rewrite Hmap. eexists. reflexivity.
Qed.

End MoveTask.

(** A success whose parsed body is [null]: reading [sync_status] throws
    before any check is made. *)
Lemma moveTask_null_body (this : TodoistClient.t) (taskId : value)
  (destination : Obj) (env : Env) (st : State) (resp : Response.t) :
  (forall req, Request.url req = SYNC_API_URL -> fetch env req = inr resp) ->
  Response.ok resp = true ->
  Response.json resp = inr VNull ->
  exists st',
    TodoistClient.moveTask this taskId destination env st
    = (inl (JsError "Cannot read properties of null (reading 'sync_status')"),
       st').
Proof.
  intros Hfetch Hok Hjson. unfold TodoistClient.moveTask.
  unfold bind at 1, log_call at 1.
  unfold bind at 1, crypto_randomUUID at 1.
  cbn [calls requests raised drawn].
  unfold bind at 1, do_fetch at 1.
  rewrite Hfetch by reflexivity.
  cbn [await ret calls requests raised drawn].
  rewrite Hok. cbn [negb]. rewrite Hjson.
  unfold bind at 1. cbn [await ret].
  unfold bind at 1. cbn [member throw].
  eexists. reflexivity.
Qed.

(** C1 (amended). After a successful HTTP exchange [moveTask] fails with
    the move error exactly when the response carries a status map (a
    truthy [sync_status]) whose entry for the generated [uuid] is not the
    string [ok], a missing entry included; the handler then answers
    [isError: true]. With entry [ok], or with a parsed response other
    than [null] that has no status map, the parsed response is returned.
    A parsed response that is [null] fails with the [TypeError] of
    reading [sync_status] (as V8 words it), not with the move error, and
    the handler answers [isError: true] as well. *)
Theorem moveTask_checks_present_status_map (this : TodoistClient.t)
  (taskId : value) (destination : Obj) (env : Env) (st : State)
  (resp : Response.t) (result : value) :
  (forall req, Request.url req = SYNC_API_URL -> fetch env req = inr resp) ->
  Response.ok resp = true ->
  Response.json resp = inr result ->
  let entry := prop (prop result "sync_status") (randomUUID env (drawn st)) in
  (truthy (prop result "sync_status") = true -> entry <> VStr "ok" ->
   exists st',
     TodoistClient.moveTask this taskId destination env st
     = (inl (JsError ("Move task failed: "
                      +:+ template_opt (JSON_stringify entry 0))), st')) /\
  (truthy (prop result "sync_status") = true -> entry = VStr "ok" ->
   exists st',
     TodoistClient.moveTask this taskId destination env st
     = (inr result, st')) /\
  (result <> VNull -> result <> VUndefined ->
   truthy (prop result "sync_status") = false ->
   exists st',
     TodoistClient.moveTask this taskId destination env st
     = (inr result, st')) /\
  (forall p a,
      negb (truthy (Object.get a "project_id"))
      && negb (truthy (Object.get a "section_id"))
      && negb (truthy (Object.get a "parent_id")) = false ->
      truthy (prop result "sync_status") = true -> entry <> VStr "ok" ->
      exists st',
        move_task p a env st
        = (inr (result_error
                  ("Error moving task: Move task failed: "
                   +:+ template_opt (JSON_stringify entry 0))), st')) /\
  (result = VNull ->
   (exists st',
       TodoistClient.moveTask this taskId destination env st
       = (inl (JsError
                 "Cannot read properties of null (reading 'sync_status')"),
          st')) /\
   (forall p a,
       negb (truthy (Object.get a "project_id"))
       && negb (truthy (Object.get a "section_id"))
       && negb (truthy (Object.get a "parent_id")) = false ->
       exists st',
         move_task p a env st
         = (inr (result_error
                   "Error moving task: Cannot read properties of null (reading 'sync_status')"),
            st'))).
Proof.
  intros Hfetch Hok Hjson entry.
  split; [ | split; [ | split; [ | split ] ] ].
  - intros Hmap Hentry.
    destruct (moveTask_rejected this taskId destination env st resp result
                Hfetch Hok Hjson Hmap Hentry) as (st' & H & _).
    exists st'. exact H.
  - apply (moveTask_accepted this taskId destination env st resp result);
      assumption.
  - intros Hnull Hundef.
    apply (moveTask_unchecked this taskId destination env st resp result);
      try assumption.
    destruct result; try reflexivity; congruence.
  - intros p a Hdest Hmap Hentry. unfold move_task. cbv zeta.
    rewrite Hdest.
    match goal with
    | |- context [TodoistClient.moveTask ?c ?t ?d] =>
        destruct (moveTask_rejected c t d env st resp result
                    Hfetch Hok Hjson Hmap Hentry) as (st' & H & _)
    end.
    exists st'.
    erewrite try_catch_inl by (eapply bind_inl; exact H).
    reflexivity.
  - intros ->. split.
    + apply (moveTask_null_body this taskId destination env st resp);
        assumption.
    + intros p a Hdest. unfold move_task. cbv zeta. rewrite Hdest.
      match goal with
      | |- context [TodoistClient.moveTask ?c ?t ?d] =>
          destruct (moveTask_null_body c t d env st resp Hfetch Hok Hjson)
            as (st' & H)
      end.
      exists st'.
      erewrite try_catch_inl by (eapply bind_inl; exact H).
      reflexivity.
Qed.

(** ** The filtered task query *)

Lemma prop_nullish (v : value) (k : string) :
  (if nullish v then VUndefined else prop v k) = prop v k.
Proof. destruct v; reflexivity. Qed.

Lemma format_task_defined (task : value) :
  nullish task = false -> format_task task = ret (project_task task).
Proof.
  intros H. unfold format_task. rewrite !(member_defined _ _ H).
  unfold project_task, bind, ret. cbv beta iota zeta.
  rewrite prop_nullish. reflexivity.
Qed.

Lemma format_task_nullish (task : value) (env : Env) (st : State) :
  nullish task = true ->
  exists e st', format_task task env st = (inl e, st').
Proof.
  destruct task; simpl; intros H; try discriminate;
    unfold format_task, bind; simpl; eauto.
Qed.

Lemma mapM_format_task (l : list value) (env : Env) (st : State) :
  (Forall (fun t => nullish t = false) l /\
   mapM format_task l env st = (inr (map project_task l), st)) \/
  (exists e st', mapM format_task l env st = (inl e, st')).
Proof.
  induction l as [| t l IH]; simpl.
  - left. split; [ constructor | reflexivity ].
  - destruct (nullish t) eqn:Ht.
    + right. destruct (format_task_nullish t env st Ht) as (e & st' & H).
      exists e, st'. apply bind_inl. exact H.
    + rewrite (format_task_defined t Ht).
      destruct IH as [[Hall H] | (e & st' & H)].
      * left. split; [ constructor; assumption | ].
        unfold bind, ret. unfold bind, ret in H. rewrite H. reflexivity.
      * right. exists e, st'. unfold bind, ret. unfold bind, ret in H.
        rewrite H. reflexivity.
Qed.

(** C8 (amended). When the listing succeeds with an array of tasks,
    [get_tasks_by_filter] answers with the pretty-printed array of their
    projections to exactly [content], [description] and [due_date], where
    [due_date] is [due.date] when that is truthy and [null] otherwise;
    and every successful answer of the handler arises this way. *)
Theorem get_tasks_by_filter_projects (p : Props) (a : Obj) (env : Env)
  (st : State) :
  let listing :=
    TodoistClient.get (TodoistClient.new (accessToken p)) "/tasks"
      (Some [("filter", Object.get a "filter")]) env st in
  (forall tasks st1,
      listing = (inr (VArr tasks), st1) ->
      Forall (fun t => nullish t = false) tasks ->
      get_tasks_by_filter p a env st
      = (inr (result_text
                (JSON_stringify (VArr (map project_task tasks)) 2)), st1)) /\
  (forall r st',
      get_tasks_by_filter p a env st = (inr r, st') ->
      isError r = None ->
      exists tasks,
        listing = (inr (VArr tasks), st') /\
        Forall (fun t => nullish t = false) tasks /\
        r = result_text (JSON_stringify (VArr (map project_task tasks)) 2)) /\
  (forall task,
      exists due_date,
        project_task task
        = VObj [("content", prop task "content");
                ("description", prop task "description");
                ("due_date", due_date)] /\
        due_date = (if truthy (prop (prop task "due") "date")
                    then prop (prop task "due") "date" else VNull)).
Proof.
  intros listing. subst listing. unfold get_tasks_by_filter. cbv zeta.
  repeat split.
  - intros tasks st1 Hget Hall.
    erewrite try_catch_inr; [ reflexivity | ].
    erewrite bind_inr by exact Hget.
    unfold tasks_map.
    destruct (mapM_format_task tasks env st1) as [[_ H] | (e & st' & H)].
    + erewrite bind_inr; [ reflexivity | ].
      erewrite bind_inr by exact H. reflexivity.
    + exfalso. clear Hget. revert e st' H.
      induction Hall as [| t l Ht Hall IH]; intros e st' H;
        [ discriminate H | ].
      simpl in H. rewrite (format_task_defined t Ht) in H.
      unfold bind at 1 in H. cbn [ret] in H.
      unfold bind at 1 in H.
      destruct (mapM format_task l env st1) as [[e1 | ys] st2] eqn:E.
      * eapply IH. reflexivity.
      * discriminate H.
  - intros r st' Hrun Herr.
    unfold try_catch in Hrun. unfold bind at 1 in Hrun.
    destruct (TodoistClient.get _ _ _ env st) as [[e | v] st1] eqn:Hget.
    { injection Hrun as <- <-. discriminate Herr. }
    destruct v; unfold tasks_map in Hrun;
      try (unfold bind, throw in Hrun; simpl in Hrun;
           injection Hrun as <- <-; discriminate Herr).
    destruct (mapM_format_task l env st1) as [[Hall H] | (e & st2 & H)].
    + erewrite bind_inr in Hrun; [ | erewrite bind_inr by exact H; reflexivity ].
      injection Hrun as <- <-. exists l. repeat split; assumption.
    + erewrite bind_inl in Hrun; [ | eapply bind_inl; exact H ].
      injection Hrun as <- <-. discriminate Herr.
  - eexists. split; reflexivity.
Qed.

(** ** Objects built by conditional assignment *)

Lemma has_set (o : Obj) (k k' : string) (v : value) :
  Object.has (Object.set o k v) k' = String.eqb k k' || Object.has o k'.
Proof.
  induction o as [| [k0 v0] o IH]; simpl.
  - rewrite orb_false_r. reflexivity.
  - destruct (String.eqb_spec k0 k) as [-> | Hk]; simpl.
    + destruct (String.eqb k k'); reflexivity.
    + rewrite IH. destruct (String.eqb k0 k'), (String.eqb k k'); reflexivity.
Qed.

Lemma get_set (o : Obj) (k k' : string) (v : value) :
  Object.get (Object.set o k v) k'
  = if String.eqb k k' then v else Object.get o k'.
Proof.
  induction o as [| [k0 v0] o IH]; simpl.
  - reflexivity.
  - destruct (String.eqb_spec k0 k) as [-> | Hk]; simpl.
    + destruct (String.eqb k k'); reflexivity.
    + rewrite IH. destruct (String.eqb_spec k0 k') as [-> | Hk'];
        [ | reflexivity ].
      destruct (String.eqb_spec k k') as [-> | _];
        [ contradiction | reflexivity ].
Qed.

Lemma has_assign_if (c : bool) (o : Obj) (k k' : string) (v : value) :
  Object.has (assign_if c o k v) k'
  = String.eqb k k' && c || Object.has o k'.
Proof.
  unfold assign_if. destruct c.
  - rewrite has_set, andb_true_r. reflexivity.
  - rewrite andb_false_r. reflexivity.
Qed.

Lemma get_assign_if (c : bool) (o : Obj) (k k' : string) (v : value) :
  Object.get (assign_if c o k v) k'
  = if String.eqb k k' && c then v else Object.get o k'.
Proof.
  unfold assign_if. destruct c.
  - rewrite get_set, andb_true_r. reflexivity.
  - rewrite andb_false_r. reflexivity.
Qed.

(** ** What the client operations log *)

Lemma post_logs (this : TodoistClient.t) (endpoint : string)
  (data : option Obj) (env : Env) (st : State) :
  let d := match data with Some d => d | None => [] end in
  calls (snd (TodoistClient.post this endpoint data env st))
  = (calls st ++ [CallPost endpoint data])%list /\
  requests (snd (TodoistClient.post this endpoint data env st))
  = (requests st
     ++ [Request.mk (API_BASE_URL +:+ endpoint) "POST"
           (TodoistClient.getHeaders this true)
           (JSON_stringify (VObj d) 0)])%list.
Proof.
  intros d. unfold TodoistClient.post.
  unfold bind at 1. unfold log_call at 1.
  apply (fetch_then_quiet_logs _ _ env
           {| calls := (calls st ++ [CallPost endpoint data])%list;
              requests := requests st; raised := raised st;
              drawn := drawn st |}).
  apply quiet_handleResponse.
Qed.

Lemma delete_logs (this : TodoistClient.t) (endpoint : string) (env : Env)
  (st : State) :
  calls (snd (TodoistClient.delete this endpoint env st))
  = (calls st ++ [CallDelete endpoint])%list.
Proof.
  unfold TodoistClient.delete.
  unfold bind at 1. unfold log_call at 1.
  apply (fetch_then_quiet_logs _ _ env
           {| calls := (calls st ++ [CallDelete endpoint])%list;
              requests := requests st; raised := raised st;
              drawn := drawn st |}).
  apply quiet_handleResponse.
Qed.

Lemma moveTask_logs (this : TodoistClient.t) (taskId : value)
  (destination : Obj) (env : Env) (st : State) :
  calls (snd (TodoistClient.moveTask this taskId destination env st))
  = (calls st ++ [CallMoveTask taskId destination])%list.
Proof.
  unfold TodoistClient.moveTask.
  unfold bind at 1. unfold log_call at 1.
  unfold bind at 1. unfold crypto_randomUUID at 1.
  cbn [calls requests raised drawn].
  apply (fetch_then_quiet_logs _ _ env
           {| calls := (calls st ++ [CallMoveTask taskId destination])%list;
              requests := requests st; raised := raised st;
              drawn := S (drawn st) |}).
  intros r. destruct (negb (Response.ok r)).
  - apply quiet_bind; [ apply quiet_await | intros; apply quiet_throw ].
  - apply quiet_bind; [ apply quiet_await | intros result ].
    apply quiet_bind; [ apply quiet_member | intros sync_status ].
    match goal with
    | |- quiet (if ?c then _ else _) =>
        destruct c; [ apply quiet_throw | apply quiet_ret ]
    end.
Qed.

(** ** Optional parameters *)

Ltac open_handler :=
  cbv beta zeta delta
    [create_project get_projects update_project create_section get_sections
     create_task get_tasks update_task move_task quick_add_task
     get_completed_tasks_by_completion_date get_completed_tasks_by_due_date
     create_label get_labels update_label get_shared_labels create_comment
     get_comments].

Ltac listed := simpl; repeat first [ left; reflexivity | right ].

Ltac guards_hold :=
  repeat apply Forall_cons_2; try apply Forall_nil_2;
  unfold follows_guard; (split; cbn [fst snd passes]);
  rewrite ?has_assign_if, ?get_assign_if; simpl;
  rewrite ?orb_false_r; reflexivity.

(** A handler that makes one [post] or [get] with the object it built. *)
Ltac one_call :=
  intros a env st; right; open_handler;
  rewrite try_catch_ret_snd, bind_ret_snd;
  eexists _, _; split;
  [ first [ apply (proj1 (post_logs _ _ _ _ _))
          | apply (proj1 (get_logs _ _ _ _ _)) ]
  | split; [ reflexivity | guards_hold ] ].

Lemma move_task_call (p : Props) (a : Obj) (env : Env) (st : State) :
  (calls (snd (move_task p a env st)) = calls st /\
   truthy (Object.get a "project_id") = false /\
   truthy (Object.get a "section_id") = false /\
   truthy (Object.get a "parent_id") = false) \/
  (exists c o,
      calls (snd (move_task p a env st)) = (calls st ++ [c])%list /\
      call_object c = Some o /\
      Forall (follows_guard a o)
        [("project_id", IfTruthy); ("section_id", IfTruthy);
         ("parent_id", IfTruthy)]).
Proof.
  destruct (negb (truthy (Object.get a "project_id"))
            && negb (truthy (Object.get a "section_id"))
            && negb (truthy (Object.get a "parent_id"))) eqn:E.
  - left. apply andb_true_iff in E. destruct E as [E E3].
    apply andb_true_iff in E. destruct E as [E1 E2].
    apply negb_true_iff in E1, E2, E3.
    rewrite (move_task_without_destination p a env st E1 E2 E3). tauto.
  - right. open_handler. rewrite E.
    rewrite try_catch_ret_snd, bind_ret_snd.
    eexists _, _. split; [ apply moveTask_logs | ].
    split; [ reflexivity | guards_hold ].
Qed.

(** C6 (amended). Each handler with optional parameters calls the
    client once, and the object it hands over has the key of an optional
    parameter exactly when the parameter passes the guard the handler has
    for it: [!== undefined] in the update handlers (and for a few
    parameters elsewhere), truthiness in the create and list handlers, no
    guard in [create_project] and [create_section]. The one exception is
    [move_task] with no truthy destination, which calls nothing.
    [update_project] called with only [project_id] posts the empty
    object. *)
Theorem optional_parameters_follow_guards (p : Props) :
  Forall
    (fun entry =>
       In (fst (fst entry), snd (fst entry)) (handlers p) /\
       forall a env st,
         (fst (fst entry) = "move_task" /\
          calls (snd (snd (fst entry) a env st)) = calls st /\
          truthy (Object.get a "project_id") = false /\
          truthy (Object.get a "section_id") = false /\
          truthy (Object.get a "parent_id") = false) \/
         (exists c o,
             calls (snd (snd (fst entry) a env st)) = (calls st ++ [c])%list /\
             call_object c = Some o /\
             Forall (follows_guard a o) (snd entry)))
    (optional_parameters p) /\
  (forall env st,
      calls (snd (update_project p [("project_id", VStr "1")] env st))
      = (calls st ++ [CallPost "/projects/1" (Some [])])%list /\
      requests (snd (update_project p [("project_id", VStr "1")] env st))
      = (requests st
         ++ [Request.mk "https://api.todoist.com/rest/v2/projects/1" "POST"
               (TodoistClient.getHeaders
                  (TodoistClient.new (accessToken p)) true)
               (Some "{}")])%list).
Proof.
  split.
  - unfold optional_parameters.
    repeat (apply Forall_cons_2; [ cbn [fst snd]; split; [ listed | ] | ]);
      [ .. | apply Forall_nil_2 ];
      first
        [ one_call
        | intros a env st;
          destruct (move_task_call p a env st) as [H | H];
          [ left; split; [ reflexivity | exact H ] | right; exact H ] ].
  - intros env st. unfold update_project. cbv zeta.
    rewrite try_catch_ret_snd, bind_ret_snd.
    apply (post_logs _ "/projects/1" (Some [])).
Qed.

(** ** Failures: raised, caught, answered *)

Section Tidy.

Context {A B : Type}.

Lemma tidy_ret (a : A) : tidy (ret a).
Proof. intros env st. reflexivity. Qed.

Lemma tidy_throw (e : Thrown) : tidy (@throw A e).
Proof. intros env st. reflexivity. Qed.

Lemma tidy_await (p : Thrown + A) : tidy (await p).
Proof. destruct p; [ apply tidy_throw | apply tidy_ret ]. Qed.

Lemma tidy_bind (m : M A) (k : A -> M B) :
  tidy m -> (forall a, tidy (k a)) -> tidy (bind m k).
Proof.
  intros Hm Hk env st. unfold bind.
  specialize (Hm env st). destruct (m env st) as [[e | a] st1].
  - exact Hm.
  - specialize (Hk a env st1). destruct (k a env st1) as [[e | b] st2];
      congruence.
Qed.

Lemma tidy_if (c : bool) (m1 m2 : M A) :
  tidy m1 -> tidy m2 -> tidy (if c then m1 else m2).
Proof. destruct c; trivial. Qed.

End Tidy.

Lemma tidy_log_call (c : ClientCall) : tidy (log_call c).
Proof. intros env st. reflexivity. Qed.

Lemma tidy_do_fetch (req : Request.t) : tidy (do_fetch req).
Proof. intros env st. unfold do_fetch. destruct (fetch env req); reflexivity. Qed.

Lemma tidy_crypto_randomUUID : tidy crypto_randomUUID.
Proof. intros env st. reflexivity. Qed.

Lemma tidy_member (v : value) (k : string) : tidy (member v k).
Proof. destruct v; first [ apply tidy_throw | apply tidy_ret ]. Qed.

Lemma tidy_mapM {A B} (f : A -> M B) (l : list A) :
  (forall x, tidy (f x)) -> tidy (mapM f l).
Proof.
  intros Hf. induction l as [| x l IH]; simpl.
  - apply tidy_ret.
  - apply tidy_bind; [ apply Hf | intros y ].
    apply tidy_bind; [ exact IH | intros ys; apply tidy_ret ].
Qed.

Create HintDb tidy.

#[local] Hint Resolve tidy_ret tidy_throw tidy_await tidy_bind tidy_if
  tidy_log_call tidy_do_fetch tidy_crypto_randomUUID tidy_member tidy_mapM
  : tidy.

Lemma tidy_handleResponse (response : Response.t) :
  tidy (TodoistClient.handleResponse response).
Proof. unfold TodoistClient.handleResponse. eauto 10 with tidy. Qed.

#[local] Hint Resolve tidy_handleResponse : tidy.

Lemma tidy_get (this : TodoistClient.t) (endpoint : string)
  (params : option Obj) : tidy (TodoistClient.get this endpoint params).
Proof. unfold TodoistClient.get. eauto 10 with tidy. Qed.

Lemma tidy_post (this : TodoistClient.t) (endpoint : string)
  (data : option Obj) : tidy (TodoistClient.post this endpoint data).
Proof. unfold TodoistClient.post. eauto 10 with tidy. Qed.

Lemma tidy_delete (this : TodoistClient.t) (endpoint : string) :
  tidy (TodoistClient.delete this endpoint).
Proof. unfold TodoistClient.delete. eauto 10 with tidy. Qed.

Lemma tidy_moveTask (this : TodoistClient.t) (taskId : value)
  (destination : Obj) : tidy (TodoistClient.moveTask this taskId destination).
Proof. unfold TodoistClient.moveTask. eauto 12 with tidy. Qed.

Lemma tidy_format_task (task : value) : tidy (format_task task).
Proof. unfold format_task. eauto 10 with tidy. Qed.

Lemma tidy_tasks_map (tasks : value) : tidy (tasks_map tasks format_task).
Proof.
  unfold tasks_map. destruct tasks; auto with tidy.
  apply tidy_bind; [ apply tidy_mapM, tidy_format_task | auto with tidy ].
Qed.

#[local] Hint Resolve tidy_get tidy_post tidy_delete tidy_moveTask
  tidy_tasks_map : tidy.

Section Refusal.

Variables (env : Env) (s : Z) (b : string).
Hypothesis refuses : upstream_refuses env s b.

Lemma fetch_refused {A} (req : Request.t) (k : Response.t -> M A)
  (st : State) :
  exists resp st1,
    Response.ok resp = false /\ Response.status resp = s /\
    Response.text resp = inr b /\
    bind (do_fetch req) k env st = k resp env st1.
Proof.
  destruct (refuses req) as (resp & Hf & Hok & Hs & Ht).
  exists resp. eexists. repeat split; try assumption.
  unfold bind, do_fetch. rewrite Hf. reflexivity.
Qed.

Lemma handleResponse_refused (resp : Response.t) (st : State) :
  Response.ok resp = false -> Response.status resp = s ->
  Response.text resp = inr b ->
  fst (TodoistClient.handleResponse resp env st)
  = inl (JsError (refusal "Todoist API" s b)).
Proof.
  intros Hok Hs Ht. unfold TodoistClient.handleResponse.
  rewrite Hok, Hs, Ht. reflexivity.
Qed.

Lemma get_refused (this : TodoistClient.t) (endpoint : string)
  (params : option Obj) (st : State) :
  fst (TodoistClient.get this endpoint params env st)
  = inl (JsError (refusal "Todoist API" s b)).
Proof.
  unfold TodoistClient.get. unfold bind at 1, log_call at 1.
  match goal with
  | |- context [bind (do_fetch ?req) ?k env ?st1] =>
      destruct (fetch_refused req k st1) as (resp & st2 & Hok & Hs & Ht & ->)
  end.
  apply handleResponse_refused; assumption.
Qed.

Lemma post_refused (this : TodoistClient.t) (endpoint : string)
  (data : option Obj) (st : State) :
  fst (TodoistClient.post this endpoint data env st)
  = inl (JsError (refusal "Todoist API" s b)).
Proof.
  unfold TodoistClient.post. unfold bind at 1, log_call at 1.
  match goal with
  | |- context [bind (do_fetch ?req) ?k env ?st1] =>
      destruct (fetch_refused req k st1) as (resp & st2 & Hok & Hs & Ht & ->)
  end.
  apply handleResponse_refused; assumption.
Qed.

Lemma delete_refused (this : TodoistClient.t) (endpoint : string)
  (st : State) :
  fst (TodoistClient.delete this endpoint env st)
  = inl (JsError (refusal "Todoist API" s b)).
Proof.
  unfold TodoistClient.delete. unfold bind at 1, log_call at 1.
  match goal with
  | |- context [bind (do_fetch ?req) ?k env ?st1] =>
      destruct (fetch_refused req k st1) as (resp & st2 & Hok & Hs & Ht & ->)
  end.
  apply handleResponse_refused; assumption.
Qed.

Lemma moveTask_refused (this : TodoistClient.t) (taskId : value)
  (destination : Obj) (st : State) :
  fst (TodoistClient.moveTask this taskId destination env st)
  = inl (JsError (refusal "Todoist Sync API" s b)).
Proof.
  unfold TodoistClient.moveTask. unfold bind at 1, log_call at 1.
  unfold bind at 1, crypto_randomUUID at 1.
  match goal with
  | |- context [bind (do_fetch ?req) ?k env ?st1] =>
      destruct (fetch_refused req k st1) as (resp & st2 & Hok & Hs & Ht & ->)
  end.
  rewrite Hok, Hs, Ht. reflexivity.
Qed.

End Refusal.

Lemma refusable_ret {A} (a : A) : refusable (ret a).
Proof. intros env st s b _. left. reflexivity. Qed.

Lemma refusable_if {A} (c : bool) (m1 m2 : M A) :
  refusable m1 -> refusable m2 -> refusable (if c then m1 else m2).
Proof. destruct c; trivial. Qed.

Lemma refusable_bind {A B} (api : string) (m : M A) (k : A -> M B) :
  In api apis ->
  (forall env s b st, upstream_refuses env s b ->
                      fst (m env st) = inl (JsError (refusal api s b))) ->
  refusable (bind m k).
Proof.
  intros Hapi Hm env st s b Href. right. exists api. split; [ exact Hapi | ].
  specialize (Hm env s b st Href). unfold bind.
  destruct (m env st) as [[e | a] st1]; simpl in Hm |- *;
    [ injection Hm as ->; reflexivity | discriminate Hm ].
Qed.

Lemma refusable_get {B} this endpoint params (k : value -> M B) :
  refusable (bind (TodoistClient.get this endpoint params) k).
Proof.
  apply (refusable_bind "Todoist API"); [ simpl; tauto | ].
  intros. apply get_refused. assumption.
Qed.

Lemma refusable_post {B} this endpoint data (k : value -> M B) :
  refusable (bind (TodoistClient.post this endpoint data) k).
Proof.
  apply (refusable_bind "Todoist API"); [ simpl; tauto | ].
  intros. apply post_refused. assumption.
Qed.

Lemma refusable_delete {B} this endpoint (k : value -> M B) :
  refusable (bind (TodoistClient.delete this endpoint) k).
Proof.
  apply (refusable_bind "Todoist API"); [ simpl; tauto | ].
  intros. apply delete_refused. assumption.
Qed.

Lemma refusable_moveTask {B} this taskId destination (k : value -> M B) :
  refusable (bind (TodoistClient.moveTask this taskId destination) k).
Proof.
  apply (refusable_bind "Todoist Sync API"); [ simpl; tauto | ].
  intros. apply moveTask_refused. assumption.
Qed.

(** The catch block shared by the handlers. *)
Lemma catch_normalizes (action : string) (m : M ToolResult) :
  tidy m -> refusable m ->
  normalizes action
    (try_catch m
       (fun error =>
          ret (result_error ("Error " +:+ action +:+ ": "
                             +:+ error_message error)))).
Proof.
  intros Ht Hr env st. unfold try_catch.
  specialize (Ht env st). specialize (Hr env st).
  destruct (m env st) as [[e | r] st1]; simpl in Hr.
  - eexists _, st1. split; [ reflexivity | ]. split.
    + right. exists e. split; [ exact Ht | reflexivity ].
    + intros s b Href. destruct (Hr s b Href) as [H | (api & Hapi & H)];
        [ left; exact H | right ].
      exists api. split; [ exact Hapi | ]. injection H as ->. reflexivity.
  - exists r, st1. split; [ reflexivity | ]. split.
    + left. exact Ht.
    + intros s b Href. destruct (Hr s b Href) as [H | (api & _ & H)];
        [ left; exact H | discriminate H ].
Qed.

Lemma me_normalizes (action : string) (p : Props) (a : Obj) :
  normalizes action (me p a).
Proof.
  intros env st. eexists _, st. split; [ reflexivity | ].
  split; [ left; reflexivity | intros; left; reflexivity ].
Qed.

Ltac open_any_handler :=
  cbv beta zeta delta
    [get_tasks_by_filter create_project get_projects get_project
     update_project delete_project archive_project unarchive_project
     get_project_collaborators create_section get_sections get_section
     update_section delete_section create_task get_tasks get_task update_task
     delete_task close_task reopen_task move_task quick_add_task
     get_completed_tasks_by_completion_date get_completed_tasks_by_due_date
     create_label get_labels get_label update_label delete_label
     get_shared_labels remove_shared_label rename_shared_label create_comment
     get_comments get_comment update_comment delete_comment].

Ltac answers_failures :=
  match goal with
  | |- normalizes ?x _ =>
      let act := eval vm_compute in x in
      change x with act;
      open_any_handler;
      refine (catch_normalizes act _ _ _);
      [ eauto 10 with tidy
      | first [ apply refusable_get | apply refusable_post
              | apply refusable_delete
              | apply refusable_if;
                [ apply refusable_ret | apply refusable_moveTask ] ] ]
  end.

Lemma handlers_normalize (p : Props) (name : string) (h : Handler) :
  In (name, h) (handlers p) -> forall a, normalizes (action_of name) (h a).
Proof.
  unfold handlers. simpl. intros H.
  destruct H as [H | H];
    [ injection H as <- <-; intros a; apply me_normalizes | ].
  repeat (destruct H as [H | H];
          [ injection H as <- <-; intros a; answers_failures | ]).
  contradiction.
Qed.

Lemma quiet_format_task (task : value) : quiet (format_task task).
Proof.
  unfold format_task.
  repeat (apply quiet_bind; [ apply quiet_member | intros ? ]).
  apply quiet_ret.
Qed.

Lemma quiet_tasks_map (tasks : value) : quiet (tasks_map tasks format_task).
Proof.
  unfold tasks_map. destruct tasks; try apply quiet_throw.
  apply quiet_bind; [ apply quiet_mapM, quiet_format_task | ].
  intros ?. apply quiet_ret.
Qed.

Lemma bind_quiet_calls {A B} (m : M A) (k : A -> M B) env st :
  (forall x, quiet (k x)) ->
  calls (snd (bind m k env st)) = calls (snd (m env st)).
Proof.
  intros Hk. unfold bind. destruct (m env st) as [[e | a] st1];
    [ reflexivity | ].
  apply (Hk a env st1).
Qed.

(** A handler that reaches its client operation logs exactly that call. *)
Ltac calls_once :=
  open_any_handler; rewrite try_catch_ret_snd;
  first
    [ rewrite bind_ret_snd
    | rewrite bind_quiet_calls
        by (intros ?; apply quiet_bind;
            [ apply quiet_tasks_map | intros ?; apply quiet_ret ]) ];
  first [ apply (proj1 (post_logs _ _ _ _ _))
        | apply (proj1 (get_logs _ _ _ _ _))
        | apply delete_logs ].

(** Only [me], and [move_task] without a destination, return without
    calling the client. *)
Lemma handlers_call_client (p : Props) (name : string) (h : Handler) :
  In (name, h) (handlers p) ->
  forall a env st,
    name = "me" \/
    (name = "move_task" /\
     truthy (Object.get a "project_id") = false /\
     truthy (Object.get a "section_id") = false /\
     truthy (Object.get a "parent_id") = false) \/
    exists c, calls (snd (h a env st)) = (calls st ++ [c])%list.
Proof.
  unfold handlers. simpl. intros H.
  destruct H as [H | H]; [ injection H as <- <-; intros; left; reflexivity | ].
  repeat (destruct H as [H | H];
          [ injection H as <- <-; intros a env st; right;
            first
              [ right; eexists; calls_once
              | destruct (move_task_call p a env st) as [(_ & H1) | (c & _ & H1 & _)];
                [ left; split; [ reflexivity | exact H1 ]
                | right; exists c; exact H1 ] ]
          | ]).
  contradiction.
Qed.

Lemma app_one_neq {A} (l : list A) (x : A) : (l ++ [x])%list <> l.
Proof.
  intros H. apply (f_equal (@List.length A)) in H.
  rewrite List.length_app in H. simpl in H. lia.
Qed.

(** C3. Every handler registered by [init] always returns a result (no
    failure leaves it); when a failure is raised while it runs, the
    result is [isError: true] with the text [Error <action>: ] followed
    by the failure's message; and when the upstream refuses with a
    non-success status and a raw body, the text carries that status and
    that body, for every handler but [me], and [move_task] without a
    destination, which do not call the client. *)
Theorem handlers_answer_every_failure (cls : Statics) (p : Props)
  (name : string) (h : Handler) :
  init cls p !! name = Some h ->
  forall a env st, exists r st',
    h a env st = (inr r, st') /\
    (raised st' = raised st \/
     exists e,
       raised st' = (raised st ++ [e])%list /\
       isError r = Some true /\
       content r
       = [{| type := "text";
             text := Some ("Error " +:+ action_of name +:+ ": "
                           +:+ error_message e) |}]) /\
    (forall s b,
        upstream_refuses env s b ->
        name = "me" \/
        (name = "move_task" /\
         truthy (Object.get a "project_id") = false /\
         truthy (Object.get a "section_id") = false /\
         truthy (Object.get a "parent_id") = false) \/
        exists api,
          In api ["Todoist API"; "Todoist Sync API"] /\
          isError r = Some true /\
          content r
          = [{| type := "text";
                text := Some ("Error " +:+ action_of name +:+ ": "
                              +:+ api +:+ " error ("
                              +:+ ToString (VNum s) +:+ "): " +:+ b) |}]).
Proof.
  intros Hreg a env st.
  apply init_lookup_handlers in Hreg.
  destruct (handlers_normalize p name h Hreg a env st)
    as (r & st' & Hrun & Hraised & Hrefused).
  exists r, st'. split; [ exact Hrun | ]. split.
  - destruct Hraised as [H | (e & H & ->)]; [ left; exact H | right ].
    exists e. repeat split. exact H.
  - intros s b Href.
    destruct (handlers_call_client p name h Hreg a env st)
      as [Hme | [Hmove | (c & Hc)]]; [ tauto | tauto | ].
    right. right.
    destruct (Hrefused s b Href) as [H | (api & Hapi & ->)].
    + exfalso. rewrite Hrun in Hc. simpl in Hc. rewrite H in Hc.
      symmetry in Hc. exact (app_one_neq _ _ Hc).
    + exists api. repeat split. exact Hapi.
Qed.

(** * Concrete runs *)

(** The upstream accepts the request (status 200) and answers with the
    JSON object [{}]: there is no status map, the entry for the command's
    uuid is not [ok], and still [moveTask] returns the parsed response
    and the handler reports success. *)
Lemma moveTask_without_status_map_returns :
  strict_eq_str (prop (prop (VObj []) "sync_status") (sample_uuid 0)) "ok"
  = false /\
  fst (TodoistClient.moveTask (TodoistClient.new "token") (VStr "7")
         [("project_id", VStr "9")] (world_json (VObj [])) initial)
  = inr (VObj []) /\
  fst (move_task sample_props
         [("task_id", VStr "7"); ("project_id", VStr "9")]
         (world_json (VObj [])) initial)
  = inr (result_text (Some ("Task moved successfully." +:+ nl +:+ "{}"))).
Proof. repeat split. Qed.

(** The command [uuid-0] is answered with an error object. *)
Lemma moveTask_rejected_command :
  exists st',
    TodoistClient.moveTask (TodoistClient.new "token") (VStr "7")
      [("project_id", VStr "9")]
      (world_json
         (VObj [("sync_status",
                 VObj [("uuid-0", VObj [("error_code", VNum 15)])])]))
      initial
    = (inl (JsError ("Move task failed: {" +:+ dquote +:+ "error_code"
                     +:+ dquote +:+ ":15}")), st').
Proof.
  destruct (moveTask_checks_present_status_map
              (TodoistClient.new "token") (VStr "7")
              [("project_id", VStr "9")]
              (world_json
                 (VObj [("sync_status",
                         VObj [("uuid-0", VObj [("error_code", VNum 15)])])]))
              initial
              (Response.mk true 200
                 (inr (template_opt
                         (JSON_stringify
                            (VObj [("sync_status",
                                    VObj [("uuid-0",
                                           VObj [("error_code", VNum 15)])])])
                            0)))
                 (inr (VObj [("sync_status",
                              VObj [("uuid-0",
                                     VObj [("error_code", VNum 15)])])])))
              (VObj [("sync_status",
                      VObj [("uuid-0", VObj [("error_code", VNum 15)])])])
              (fun _ _ => eq_refl) eq_refl eq_refl) as [H _].
  apply H; [ reflexivity | discriminate ].
Defined.

Lemma move_task_no_destination_run :
  exists r st',
    move_task sample_props [("task_id", VStr "7")] (world_json VNull) initial
    = (inr r, st') /\
    isError r = Some true /\
    calls st' = calls initial /\ requests st' = requests initial.
Proof.
  apply (move_task_no_destination_no_client_call sample_props
           [("task_id", VStr "7")] (world_json VNull) initial);
    reflexivity.
Defined.

Lemma move_task_empty_destinations_run :
  exists r st',
    move_task sample_props
      [("task_id", VStr "7"); ("project_id", VStr "");
       ("section_id", VStr ""); ("parent_id", VStr "")]
      (world_json VNull) initial
    = (inr r, st') /\
    isError r = Some true /\
    calls st' = calls initial /\ requests st' = requests initial.
Proof.
  apply (move_task_empty_strings_are_absent sample_props
           [("task_id", VStr "7"); ("project_id", VStr "");
            ("section_id", VStr ""); ("parent_id", VStr "")]
           (world_json VNull) initial);
    reflexivity.
Defined.

Lemma world_status_refuses (s : Z) (b : string) :
  upstream_refuses (world_status s b) s b.
Proof. intros req. eexists. repeat split. Qed.

(** [create_task] against an upstream that answers 404. *)
Lemma create_task_upstream_404 :
  exists r st',
    create_task sample_props [("content", VStr "Buy milk")]
      (world_status 404 "Not Found") initial
    = (inr r, st') /\
    isError r = Some true /\
    content r
    = [{| type := "text";
          text := Some "Error creating task: Todoist API error (404): Not Found"
       |}].
Proof.
  assert (Hreg : init TodoistMCP sample_props !! "create_task"
                 = Some (create_task sample_props)) by reflexivity.
  destruct (handlers_answer_every_failure TodoistMCP sample_props
              "create_task" (create_task sample_props) Hreg
              [("content", VStr "Buy milk")]
              (world_status 404 "Not Found") initial)
    as (r & st' & Hrun & _ & Href).
  exists r, st'. split; [ exact Hrun | ].
  vm_compute in Hrun. injection Hrun as <- <-.
  split; reflexivity.
Defined.

(** [create_task] with an explicit empty description: the body has no
    [description] key although the input is not [undefined]. *)
Lemma create_task_drops_empty_description :
  value_is_undefined
    (Object.get [("content", VStr "Buy milk"); ("description", VStr "")]
       "description")
  = false /\
  calls (snd (create_task sample_props
                [("content", VStr "Buy milk"); ("description", VStr "")]
                (world_json (VObj [])) initial))
  = [CallPost "/tasks" (Some [("content", VStr "Buy milk")])] /\
  Request.body <$>
    requests (snd (create_task sample_props
                     [("content", VStr "Buy milk"); ("description", VStr "")]
                     (world_json (VObj [])) initial))
  = [Some ("{" +:+ dquote +:+ "content" +:+ dquote +:+ ":" +:+ dquote
           +:+ "Buy milk" +:+ dquote +:+ "}")].
Proof. repeat split. Qed.

(** A task whose [due.date] is present but empty: the handler prints
    [due_date: null], not the empty string the presence rule asks for. *)
Lemma empty_due_date_becomes_null :
  Object.has [("date", VStr "")] "date" = true /\
  fst (get_tasks_by_filter sample_props [("filter", VStr "today")]
         (world_json
            (VArr [VObj [("content", VStr "Buy milk");
                         ("description", VStr "");
                         ("due", VObj [("date", VStr "")])]]))
         initial)
  = inr (result_text
           (JSON_stringify
              (VArr [VObj [("content", VStr "Buy milk");
                           ("description", VStr "");
                           ("due_date", VNull)]]) 2)) /\
  project_task_by_presence
    (VObj [("content", VStr "Buy milk"); ("description", VStr "");
           ("due", VObj [("date", VStr "")])])
  = VObj [("content", VStr "Buy milk"); ("description", VStr "");
          ("due_date", VStr "")] /\
  JSON_stringify
    (VArr [VObj [("content", VStr "Buy milk"); ("description", VStr "");
                 ("due_date", VNull)]]) 2
  <> JSON_stringify
       (VArr [project_task_by_presence
                (VObj [("content", VStr "Buy milk"); ("description", VStr "");
                       ("due", VObj [("date", VStr "")])])]) 2.
Proof. repeat split. vm_compute. discriminate. Qed.

(** A listing with one dated and one undated task. *)
Lemma get_tasks_by_filter_run :
  get_tasks_by_filter sample_props [("filter", VStr "today")]
    (world_json (VArr sample_listing)) initial
  = (inr (result_text
            (JSON_stringify
               (VArr [VObj [("content", VStr "Buy milk");
                            ("description", VStr "2%");
                            ("due_date", VStr "2025-01-31")];
                      VObj [("content", VStr "Call mom");
                            ("description", VStr "");
                            ("due_date", VNull)]]) 2)),
     {| calls := [CallGet "/tasks" (Some [("filter", VStr "today")])];
        requests :=
          [Request.mk "https://api.todoist.com/rest/v2/tasks?filter=today"
             "GET"
             [("Authorization", "Bearer token"); ("Accept", "application/json")]
             None];
        raised := []; drawn := 0 |}).
Proof.
  refine (proj1 (get_tasks_by_filter_projects sample_props
                   [("filter", VStr "today")]
                   (world_json (VArr sample_listing)) initial)
            sample_listing _ eq_refl _).
  repeat constructor.
Defined.

(** * Further properties of the registry *)

Lemma catalogue_NoDup : NoDup catalogue.
Proof. apply (bool_decide_unpack _). vm_compute. reflexivity. Qed.

Lemma handlers_functional (p : Props) (n : string) (h h' : Handler) :
  In (n, h) (handlers p) -> In (n, h') (handlers p) -> h = h'.
Proof.
  intros H H'.
  assert (Hnd : NoDup (map fst (handlers p)))
    by (rewrite catalogue_handlers; apply catalogue_NoDup).
  revert H H' Hnd. generalize (handlers p) as l.
  induction l as [| [k g] l IH]; simpl; [ contradiction | ].
  intros H H' Hnd. apply NoDup_cons in Hnd. destruct Hnd as [Hk Hnd].
  assert (Hin : forall x, In (k, x) l -> k ∈ map fst l).
  { intros x Hx. apply list_elem_of_In, in_map_iff. exists (k, x). tauto. }
  destruct H as [H | H], H' as [H' | H'].
  - congruence.
  - injection H as <- <-. destruct (Hk (Hin _ H')).
  - injection H' as <- <-. destruct (Hk (Hin _ H)).
  - apply IH; assumption.
Qed.

(** X1. Whatever the configuration, [init] registers the thirteen
    unguarded tools and nothing outside the catalogue; with minimal mode
    off it registers the whole catalogue; enlarging the essential set
    only adds tools; and the handler registered under a name does not
    depend on the configuration. *)
Theorem filter_governs_only_guarded_tools (cls : Statics) (p : Props) :
  (forall n, In n unguarded -> is_Some (init cls p !! n)) /\
  (forall n, is_Some (init cls p !! n) -> In n catalogue) /\
  (MINIMAL_TOOL_SET cls = false ->
   forall n, is_Some (init cls p !! n) <-> In n catalogue) /\
  (forall cls',
      MINIMAL_TOOL_SET cls' = MINIMAL_TOOL_SET cls ->
      ESSENTIAL_TOOLS cls ⊆ ESSENTIAL_TOOLS cls' ->
      forall n, is_Some (init cls p !! n) -> is_Some (init cls' p !! n)) /\
  (forall cls' n h h',
      init cls p !! n = Some h -> init cls' p !! n = Some h' -> h = h').
Proof.
  split; [ | split; [ | split; [ | split ] ] ].
  - intros n H. apply init_registered. left. exact H.
  - intros n H. apply init_registered in H.
    destruct H as [H | [H _]]; [ apply unguarded_in_catalogue | ]; exact H.
  - intros Hfull n. rewrite init_registered. unfold shouldRegisterTool.
    rewrite Hfull. simpl. split.
    + intros [H | [H _]]; [ apply unguarded_in_catalogue | ]; exact H.
    + intros H. right. split; [ exact H | reflexivity ].
  - intros cls' Hmode Hsub n. rewrite !init_registered.
    intros [H | [H Hc]]; [ left; exact H | right ].
    split; [ exact H | ].
    unfold shouldRegisterTool in *. rewrite Hmode.
    apply orb_true_iff in Hc. apply orb_true_iff.
    destruct Hc as [Hc | Hc]; [ left; exact Hc | right ].
    apply Set_has_true. apply Hsub. apply Set_has_true. exact Hc.
  - intros cls' n h h' H H'.
    apply init_lookup_handlers in H, H'.
    exact (handlers_functional p n h h' H H').
Qed.

(** * Further properties of the client *)

Lemma fetch_handle_settles (c : ClientCall) (req : Request.t) :
  settles (let! _ := log_call c in
           let! response := do_fetch req in
           TodoistClient.handleResponse response) req.
Proof.
  intros env st. split.
  - unfold bind at 1, log_call at 1.
    apply (fetch_then_quiet_logs req _ env
             {| calls := (calls st ++ [c])%list; requests := requests st;
                raised := raised st; drawn := drawn st |}).
    apply quiet_handleResponse.
  - unfold bind, log_call, do_fetch, TodoistClient.handleResponse.
    destruct (fetch env req) as [e | resp]; cbn [await throw ret fst];
      [ reflexivity | ].
    destruct (Response.ok resp); cbn [negb].
    + destruct (Response.status resp =? 204); [ reflexivity | ].
      destruct (Response.json resp); reflexivity.
    + destruct (Response.text resp); reflexivity.
Qed.

(** X2. [get], [post] and [delete] each send one request (the method,
    the URL under the REST base, the bearer token, the JSON body for
    [post] only) and end as the response decides: rejection of [fetch]
    is passed on, a non-success status is the client's error carrying
    status and body, a 204 gives [null] without reading the body, any
    other success gives the parsed body or its parse failure. *)
Theorem rest_operations_settle (this : TodoistClient.t) (endpoint : string)
  (params data : option Obj) :
  settles (TodoistClient.get this endpoint params)
    (Request.mk
       (TodoistClient.get_url endpoint
          (match params with Some q => q | None => [] end))
       "GET"
       [("Authorization", "Bearer " +:+ TodoistClient.apiToken this);
        ("Accept", "application/json")]
       None) /\
  settles (TodoistClient.post this endpoint data)
    (Request.mk (API_BASE_URL +:+ endpoint) "POST"
       [("Authorization", "Bearer " +:+ TodoistClient.apiToken this);
        ("Accept", "application/json");
        ("Content-Type", "application/json")]
       (JSON_stringify
          (VObj (match data with Some d => d | None => [] end)) 0)) /\
  settles (TodoistClient.delete this endpoint)
    (Request.mk (API_BASE_URL +:+ endpoint) "DELETE"
       [("Authorization", "Bearer " +:+ TodoistClient.apiToken this);
        ("Accept", "application/json")]
       None).
Proof.
  repeat split; apply fetch_handle_settles.
Qed.

Lemma member_nullish (v : value) (k : string) (env : Env) (st : State) :
  nullish v = true -> exists e st', member v k env st = (inl e, st').
Proof. destruct v; simpl; intros H; try discriminate; eauto. Qed.

Lemma strict_eq_str_true (v : value) (lit : string) :
  strict_eq_str v lit = true -> v = VStr lit.
Proof.
  destruct v; simpl; try discriminate.
  intros H. apply String.eqb_eq in H. congruence.
Qed.

(** X3. [moveTask] returns a value only after one POST to the sync
    endpoint that was answered with a success status and a parsable body;
    the value returned is that body, and in it either there is no status
    map or the entry of the uuid drawn for this command is [ok]. One uuid
    is drawn per call. *)
Theorem moveTask_returns_only_accepted (this : TodoistClient.t)
  (taskId : value) (destination : Obj) (env : Env) (st st' : State)
  (v : value) :
  TodoistClient.moveTask this taskId destination env st = (inr v, st') ->
  exists req resp,
    requests st' = (requests st ++ [req])%list /\
    Request.url req = SYNC_API_URL /\ Request.method req = "POST" /\
    fetch env req = inr resp /\
    Response.ok resp = true /\ Response.json resp = inr v /\
    (truthy (prop v "sync_status") = false \/
     prop (prop v "sync_status") (randomUUID env (drawn st)) = VStr "ok") /\
    drawn st' = S (drawn st).
Proof.
  intros H. unfold TodoistClient.moveTask in H.
  unfold bind at 1, log_call at 1 in H.
  unfold bind at 1, crypto_randomUUID at 1 in H.
  cbn [calls requests raised drawn] in H.
  unfold bind at 1, do_fetch at 1 in H.
  match type of H with context [fetch env ?r] => set (req := r) in * end.
  destruct (fetch env req) as [e | resp] eqn:Hf;
    cbn [await throw ret calls requests raised drawn] in H;
    [ discriminate H | ].
  destruct (Response.ok resp) eqn:Hok; cbn [negb] in H.
  2: { unfold bind in H. destruct (Response.text resp); discriminate H. }
  unfold bind at 1 in H.
  destruct (Response.json resp) as [e | result] eqn:Hj;
    cbn [await throw ret] in H; [ discriminate H | ].
  unfold bind at 1 in H.
  destruct (nullish result) eqn:Hn.
  { match type of H with
    | context [member result ?k env ?s] =>
        destruct (member_nullish result k env s Hn) as (e & s' & Hm);
        rewrite Hm in H
    end.
    discriminate H. }
  rewrite (member_defined _ _ Hn) in H. cbn [ret] in H.
  match type of H with
  | context [if ?c then _ else _] => destruct c eqn:Hc
  end; [ discriminate H | ].
  injection H as <- <-.
  exists req, resp. cbn [requests drawn].
  repeat split; try reflexivity; try assumption.
  apply andb_false_iff in Hc. destruct Hc as [Hc | Hc]; [ left; exact Hc | ].
  right. apply negb_false_iff in Hc. apply strict_eq_str_true. exact Hc.
Qed.

Lemma moveTask_accepted_run :
  exists req resp,
    Request.url req = SYNC_API_URL /\
    fetch (world_json (VObj [("sync_status", VObj [("uuid-0", VStr "ok")])]))
      req = inr resp /\
    Response.ok resp = true /\
    prop (prop (VObj [("sync_status", VObj [("uuid-0", VStr "ok")])])
            "sync_status") "uuid-0" = VStr "ok".
Proof.
  destruct (moveTask_returns_only_accepted (TodoistClient.new "token")
              (VStr "7") [("section_id", VStr "3")]
              (world_json (VObj [("sync_status", VObj [("uuid-0", VStr "ok")])]))
              initial _ _ eq_refl)
    as (req & resp & _ & Hurl & _ & Hf & Hok & _ & _ & _).
  exists req, resp. repeat split; assumption.
Defined.

(** * The footprint of a handler *)

Section Still.

Context {A B : Type}.

Lemma still_ret (a : A) : still (ret a).
Proof. intros env st. reflexivity. Qed.

Lemma still_throw (e : Thrown) : still (@throw A e).
Proof. intros env st. reflexivity. Qed.

Lemma still_await (p : Thrown + A) : still (await p).
Proof. destruct p; [ apply still_throw | apply still_ret ]. Qed.

Lemma still_bind (m : M A) (k : A -> M B) :
  still m -> (forall a, still (k a)) -> still (bind m k).
Proof.
  intros Hm Hk env st. unfold bind. specialize (Hm env st).
  destruct (m env st) as [[e | a] st1]; simpl in *; [ exact Hm | ].
  rewrite (Hk a env st1). exact Hm.
Qed.

Lemma still_if (c : bool) (m1 m2 : M A) :
  still m1 -> still m2 -> still (if c then m1 else m2).
Proof. destruct c; trivial. Qed.

End Still.

Lemma still_log_call (c : ClientCall) : still (log_call c).
Proof. intros env st. reflexivity. Qed.

Lemma still_do_fetch (req : Request.t) : still (do_fetch req).
Proof. intros env st. unfold do_fetch. destruct (fetch env req); reflexivity. Qed.

Lemma still_member (v : value) (k : string) : still (member v k).
Proof. destruct v; first [ apply still_throw | apply still_ret ]. Qed.

Lemma still_mapM {A B} (f : A -> M B) (l : list A) :
  (forall x, still (f x)) -> still (mapM f l).
Proof.
  intros Hf. induction l as [| x l IH]; simpl.
  - apply still_ret.
  - apply still_bind; [ apply Hf | intros y ].
    apply still_bind; [ exact IH | intros ys; apply still_ret ].
Qed.

Create HintDb footprint.

#[local] Hint Resolve still_ret still_throw still_await still_bind still_if
  still_log_call still_do_fetch still_member still_mapM
  quiet_ret quiet_throw quiet_await quiet_bind quiet_member quiet_mapM
  quiet_handleResponse quiet_format_task quiet_tasks_map : footprint.

Lemma still_handleResponse (response : Response.t) :
  still (TodoistClient.handleResponse response).
Proof. unfold TodoistClient.handleResponse. eauto 10 with footprint. Qed.

Lemma still_format_task (task : value) : still (format_task task).
Proof. unfold format_task. eauto 10 with footprint. Qed.

Lemma still_tasks_map (tasks : value) : still (tasks_map tasks format_task).
Proof.
  unfold tasks_map. destruct tasks; auto with footprint.
  apply still_bind; [ apply still_mapM, still_format_task | auto with footprint ].
Qed.

#[local] Hint Resolve still_handleResponse still_format_task still_tasks_map
  : footprint.

Lemma prefix_empty (s : string) : String.prefix "" s = true.
Proof. destruct s; reflexivity. Qed.

Lemma prefix_append (a b : string) : String.prefix a (a +:+ b) = true.
Proof.
  induction a as [| c a IH]; simpl; [ apply prefix_empty | ].
  destruct (ascii_dec c c); [ exact IH | contradiction ].
Qed.

Lemma prefix_append_more (a b c : string) :
  String.prefix a ((a +:+ b) +:+ c) = true.
Proof.
  induction a as [| x a IH]; simpl; [ apply prefix_empty | ].
  destruct (ascii_dec x x); [ exact IH | contradiction ].
Qed.

Lemma get_url_under_base (endpoint : string) (params : Obj) :
  String.prefix API_BASE_URL (TodoistClient.get_url endpoint params) = true.
Proof.
  unfold TodoistClient.get_url. cbv zeta.
  destruct (negb _); [ apply prefix_append_more | apply prefix_append ].
Qed.

Section Footprint.

Variable token : string.

Lemma rest_request_footprint (c : ClientCall) (req : Request.t) :
  well_formed_request token req ->
  String.prefix API_BASE_URL (Request.url req) = true ->
  footprint token
    (let! _ := log_call c in
     let! response := do_fetch req in
     TodoistClient.handleResponse response).
Proof.
  intros Hreq Hurl env st. right. exists req.
  split; [ apply (fetch_handle_settles c req env st) | ].
  split; [ exact Hreq | right; split; [ exact Hurl | ] ].
  apply (still_bind (log_call c)); auto 10 with footprint.
Qed.

Lemma footprint_get (endpoint : string) (params : option Obj) :
  footprint token
    (TodoistClient.get (TodoistClient.new token) endpoint params).
Proof.
  apply rest_request_footprint; [ | apply get_url_under_base ].
  repeat split; simpl; try tauto; try discriminate;
    intros H; repeat (destruct H as [H | H]; try discriminate H);
    try contradiction; destruct H; discriminate.
Qed.

Lemma footprint_delete (endpoint : string) :
  footprint token (TodoistClient.delete (TodoistClient.new token) endpoint).
Proof.
  apply rest_request_footprint; [ | apply prefix_append ].
  repeat split; simpl; try tauto; try discriminate;
    intros H; repeat (destruct H as [H | H]; try discriminate H);
    try contradiction; destruct H; discriminate.
Qed.

Lemma footprint_post (endpoint : string) (data : option Obj) :
  footprint token
    (TodoistClient.post (TodoistClient.new token) endpoint data).
Proof.
  apply rest_request_footprint; [ | apply prefix_append ].
  repeat split; simpl; try tauto; intros; eexists; reflexivity.
Qed.

Lemma footprint_moveTask (taskId : value) (destination : Obj) :
  footprint token
    (TodoistClient.moveTask (TodoistClient.new token) taskId destination).
Proof.
  intros env st. right. unfold TodoistClient.moveTask.
  unfold bind at 1, log_call at 1.
  unfold bind at 1, crypto_randomUUID at 1.
  cbn [calls requests raised drawn].
  match goal with
  | |- context [bind (do_fetch ?r) ?k env ?s] =>
      exists r;
      assert (Hq : forall x, quiet (k x));
      [ | assert (Hs : forall x, still (k x));
          [ | split; [ apply (fetch_then_quiet_logs r k env s Hq) | ];
              split;
              [ | left; split;
                  [ reflexivity
                  | apply (still_bind (do_fetch r) k (still_do_fetch r) Hs env s) ] ] ] ]
  end.
  - intros r. destruct (negb (Response.ok r)); [ auto 10 with footprint | ].
    apply quiet_bind; [ apply quiet_await | intros result ].
    apply quiet_bind; [ apply quiet_member | intros sync_status ].
    match goal with
    | |- quiet (if ?c then _ else _) =>
        destruct c; [ apply quiet_throw | apply quiet_ret ]
    end.
  - intros r. destruct (negb (Response.ok r)); [ auto 10 with footprint | ].
    apply still_bind; [ apply still_await | intros result ].
    apply still_bind; [ apply still_member | intros sync_status ].
    apply still_if; [ apply still_throw | apply still_ret ].
  - repeat split; simpl; try tauto; intros; eexists; reflexivity.
Qed.

Lemma footprint_ret {A} (a : A) : footprint token (ret a).
Proof. intros env st. left. split; reflexivity. Qed.

Lemma footprint_if {A} (c : bool) (m1 m2 : M A) :
  footprint token m1 -> footprint token m2 ->
  footprint token (if c then m1 else m2).
Proof. destruct c; trivial. Qed.

Lemma footprint_bind {A B} (m : M A) (k : A -> M B) :
  footprint token m -> (forall x, quiet (k x)) -> (forall x, still (k x)) ->
  footprint token (bind m k).
Proof.
  intros Hm Hq Hs env st. specialize (Hm env st). unfold bind.
  destruct (m env st) as [[e | a] st1]; [ exact Hm | ].
  simpl in Hm. destruct (Hq a env st1) as [_ Hr]. specialize (Hs a env st1).
  rewrite Hr, Hs. exact Hm.
Qed.

Lemma footprint_try_catch {A} (m : M A) (f : Thrown -> A) :
  footprint token m -> footprint token (try_catch m (fun e => ret (f e))).
Proof.
  intros Hm env st. rewrite try_catch_ret_snd. apply Hm.
Qed.

End Footprint.

#[local] Hint Resolve footprint_get footprint_post footprint_delete
  footprint_moveTask footprint_ret footprint_if footprint_bind
  footprint_try_catch : footprint.

Lemma handlers_footprint (p : Props) (name : string) (h : Handler) :
  In (name, h) (handlers p) -> forall a, footprint (accessToken p) (h a).
Proof.
  unfold handlers. simpl. intros H.
  destruct H as [H | H];
    [ injection H as <- <-; intros a; apply footprint_ret | ].
  repeat (destruct H as [H | H];
          [ injection H as <- <-; intros a; open_any_handler;
            eauto 12 with footprint | ]).
  contradiction.
Qed.

(** X4. A run of any registered handler hands at most one request to
    [fetch]. When it hands one, the request carries the session's bearer
    token and accepts JSON, its method is GET, POST or DELETE, a JSON
    body and its content type come exactly with POST, and its URL string
    is either the sync URL, with exactly one uuid drawn, or a string that
    begins with the REST base URL, with none drawn. A run that sends
    nothing draws nothing. This is about the string given to [fetch]:
    path arguments are appended as they are, so an argument with [../] in
    it still yields a string that begins with the base. *)
Theorem handlers_send_at_most_one_request (cls : Statics) (p : Props)
  (name : string) (h : Handler) :
  init cls p !! name = Some h ->
  forall a env st,
    (requests (snd (h a env st)) = requests st /\
     drawn (snd (h a env st)) = drawn st) \/
    exists req,
      requests (snd (h a env st)) = (requests st ++ [req])%list /\
      well_formed_request (accessToken p) req /\
      ((Request.url req = SYNC_API_URL /\
        drawn (snd (h a env st)) = S (drawn st)) \/
       (String.prefix API_BASE_URL (Request.url req) = true /\
        drawn (snd (h a env st)) = drawn st)).
Proof.
  intros Hreg a env st. apply init_lookup_handlers in Hreg.
  exact (handlers_footprint p name h Hreg a env st).
Qed.

(** A task id is put into the path unencoded. *)
Lemma close_task_verbatim_path_run :
  exists req,
    requests (snd (close_task sample_props
                     [("task_id", VStr "../../../sync/v9/sync#")]
                     (world_json VNull) initial))
    = [req] /\
    Request.url req
    = "https://api.todoist.com/rest/v2/tasks/../../../sync/v9/sync#/close" /\
    Request.method req = "POST" /\
    well_formed_request "token" req /\
    String.prefix API_BASE_URL (Request.url req) = true /\
    drawn (snd (close_task sample_props
                  [("task_id", VStr "../../../sync/v9/sync#")]
                  (world_json VNull) initial)) = 0%nat.
Proof.
  assert (Hreg : init TodoistMCP sample_props !! "close_task"
                 = Some (close_task sample_props)) by reflexivity.
  destruct (handlers_send_at_most_one_request TodoistMCP sample_props
              "close_task" (close_task sample_props) Hreg
              [("task_id", VStr "../../../sync/v9/sync#")]
              (world_json VNull) initial)
    as [[Hr _] | (req & Hr & Hw & _)].
  - vm_compute in Hr. discriminate Hr.
  - exists req. vm_compute in Hr. injection Hr as <-.
    split; [ reflexivity | ]. split; [ reflexivity | ].
    split; [ reflexivity | ]. split; [ exact Hw | ].
    split; reflexivity.
Defined.

(** * Successful exchanges *)

Section Answered.

Variables (env : Env) (v : value).
Hypothesis answers : upstream_answers env v.

Lemma rest_answered (c : ClientCall) (req : Request.t) (st : State) :
  exists st1,
    (let! _ := log_call c in
     let! response := do_fetch req in
     TodoistClient.handleResponse response) env st = (inr v, st1).
Proof.
  destruct (answers req) as (resp & Hf & Hok & Hv).
  unfold bind, log_call, do_fetch, TodoistClient.handleResponse.
  rewrite Hf. cbn [await ret]. rewrite Hok. cbn [negb].
  destruct Hv as [[Hs Hj] | [Hs ->]].
  - apply Z.eqb_neq in Hs. rewrite Hs, Hj. eexists. reflexivity.
  - rewrite Hs. eexists. reflexivity.
Qed.

Lemma get_answered this endpoint params st :
  exists st1, TodoistClient.get this endpoint params env st = (inr v, st1).
Proof. apply rest_answered. Qed.

Lemma post_answered this endpoint data st :
  exists st1, TodoistClient.post this endpoint data env st = (inr v, st1).
Proof. apply rest_answered. Qed.

Lemma delete_answered this endpoint st :
  exists st1, TodoistClient.delete this endpoint env st = (inr v, st1).
Proof. apply rest_answered. Qed.

End Answered.

Section Garbled.

Variables (env : Env) (e : Thrown).
Hypothesis garbles : upstream_garbles env e.

Lemma rest_garbled (c : ClientCall) (req : Request.t) (st : State) :
  exists st1,
    (let! _ := log_call c in
     let! response := do_fetch req in
     TodoistClient.handleResponse response) env st = (inl e, st1).
Proof.
  destruct (garbles req) as (resp & Hf & Hok & Hs & Hj).
  unfold bind, log_call, do_fetch, TodoistClient.handleResponse.
  rewrite Hf. cbn [await ret]. rewrite Hok. cbn [negb].
  apply Z.eqb_neq in Hs. rewrite Hs, Hj. eexists. reflexivity.
Qed.

Lemma post_garbled this endpoint data st :
  exists st1, TodoistClient.post this endpoint data env st = (inl e, st1).
Proof. apply rest_garbled. Qed.

Lemma delete_garbled this endpoint st :
  exists st1, TodoistClient.delete this endpoint env st = (inl e, st1).
Proof. apply rest_garbled. Qed.

End Garbled.

(** Run the client operation of the goal's handler with [lemma_get],
    [lemma_post] or [lemma_delete], then the rest of the try block. *)
Ltac run_operation env st lemma_get lemma_post lemma_delete :=
  open_any_handler;
  match goal with
  | |- context [TodoistClient.get ?c ?e ?q] =>
      destruct (lemma_get c e q st) as [st1 Hop]
  | |- context [TodoistClient.post ?c ?e ?d] =>
      destruct (lemma_post c e d st) as [st1 Hop]
  | |- context [TodoistClient.delete ?c ?e] =>
      destruct (lemma_delete c e st) as [st1 Hop]
  end;
  eexists.

(** X5. Against an upstream that answers with a success status and the
    payload [v], each of the twenty-five data handlers returns, without
    an error flag, the text [JSON.stringify(v, null, 2)]: the payload is
    passed through unchanged; after a 204 the text is [null]. *)
Theorem data_handlers_pass_payload_through (p : Props) :
  Forall
    (fun entry =>
       In entry (handlers p) /\
       forall a env st v,
         upstream_answers env v ->
         exists st',
           snd entry a env st
           = (inr {| content := [{| type := "text";
                                    text := JSON_stringify v 2 |}];
                     isError := None |}, st'))
    (payload_tools p).
Proof.
  unfold payload_tools.
  repeat (apply Forall_cons_2; [ cbn [fst snd]; split; [ listed | ] | ]);
    [ .. | apply Forall_nil_2 ];
    intros a env st v Hup;
    run_operation env st (get_answered env v Hup) (post_answered env v Hup)
      (delete_answered env v Hup);
    (erewrite try_catch_inr;
     [ reflexivity | erewrite bind_inr by exact Hop; reflexivity ]).
Qed.

(** X6. The eleven confirmation handlers answer a success of the
    upstream with their fixed sentence whatever the payload; but a
    success status other than 204 whose body does not parse is reported
    as an error carrying the parse failure's message. *)
Theorem confirmations_ignore_payload (p : Props) :
  Forall
    (fun entry =>
       In (fst (fst entry), snd (fst entry)) (handlers p) /\
       (forall a env st v,
           upstream_answers env v ->
           exists st',
             snd (fst entry) a env st
             = (inr {| content := [{| type := "text";
                                      text := Some (snd entry) |}];
                       isError := None |}, st')) /\
       (forall a env st e,
           upstream_garbles env e ->
           exists st',
             snd (fst entry) a env st
             = (inr {| content :=
                         [{| type := "text";
                             text := Some ("Error "
                                           +:+ action_of (fst (fst entry))
                                           +:+ ": " +:+ error_message e) |}];
                       isError := Some true |}, st')))
    (confirmations p).
Proof.
  unfold confirmations.
  repeat (apply Forall_cons_2;
          [ cbn [fst snd]; split; [ listed | split ] | ]);
    [ .. | apply Forall_nil_2 ].
  all: first
    [ intros a env st v Hup;
      run_operation env st (get_answered env v Hup) (post_answered env v Hup)
        (delete_answered env v Hup);
      (erewrite try_catch_inr;
       [ reflexivity | erewrite bind_inr by exact Hop; reflexivity ])
    | intros a env st e Hg;
      run_operation env st (post_garbled env e Hg) (post_garbled env e Hg)
        (delete_garbled env e Hg);
      (erewrite try_catch_inl by (eapply bind_inl; exact Hop));
      reflexivity ].
Qed.

(** * Queries of the list handlers *)

Lemma truthy_query_cons (k : string) (v : value) (o : Obj) :
  truthy_query ((k, v) :: o)
  = ((if truthy v then [(k, ToString v)] else []) ++ truthy_query o)%list.
Proof. unfold truthy_query. simpl. destruct (truthy v); reflexivity. Qed.

Lemma truthy_query_snoc (o : Obj) (k : string) (v : value) :
  truthy_query (o ++ [(k, v)])%list
  = (truthy_query o ++ (if truthy v then [(k, ToString v)] else []))%list.
Proof.
  induction o as [| [k0 v0] o IH].
  - simpl. rewrite truthy_query_cons. unfold truthy_query at 1. simpl.
    rewrite app_nil_r. reflexivity.
  - change (((k0, v0) :: o) ++ [(k, v)])%list
      with ((k0, v0) :: (o ++ [(k, v)]))%list.
    rewrite !truthy_query_cons, IH, app_assoc. reflexivity.
Qed.

Lemma set_fresh (o : Obj) (k : string) (v : value) :
  Object.has o k = false -> Object.set o k v = (o ++ [(k, v)])%list.
Proof.
  induction o as [| [k0 v0] o IH]; simpl; [ reflexivity | ].
  intros H. apply orb_false_iff in H. destruct H as [H1 H2].
  rewrite H1, (IH H2). reflexivity.
Qed.

Lemma truthy_query_assign_if (c : bool) (o : Obj) (k : string) (v : value) :
  Object.has o k = false ->
  truthy_query (assign_if c o k v)
  = (truthy_query o
     ++ (if c && truthy v then [(k, ToString v)] else []))%list.
Proof.
  intros H. unfold assign_if. destruct c; simpl.
  - rewrite (set_fresh o k v H). apply truthy_query_snoc.
  - rewrite app_nil_r. reflexivity.
Qed.

Lemma defined_and_truthy (v : value) :
  negb (value_is_undefined v) && truthy v = truthy v.
Proof. destruct v; reflexivity. Qed.

Lemma get_url_congr (endpoint : string) (o o' : Obj) :
  truthy_query o = truthy_query o' ->
  TodoistClient.get_url endpoint o = TodoistClient.get_url endpoint o'.
Proof. intros H. rewrite !get_url_spec, H. reflexivity. Qed.

Lemma bind_quiet_requests {A B} (m : M A) (k : A -> M B) env st :
  (forall x, quiet (k x)) ->
  requests (snd (bind m k env st)) = requests (snd (m env st)).
Proof.
  intros Hk. unfold bind. destruct (m env st) as [[e | a] st1];
    [ reflexivity | ].
  apply (Hk a env st1).
Qed.

(** The object a list handler builds and the full list of its arguments
    give the same query. *)
Ltac same_query :=
  apply get_url_congr; unfold pick; cbn [map];
  rewrite ?truthy_query_assign_if
    by (rewrite ?has_assign_if; reflexivity);
  rewrite ?truthy_query_cons, ?andb_diag, ?defined_and_truthy;
  unfold truthy_query at 1; cbn [List.filter map];
  rewrite ?app_nil_l, ?app_nil_r, <- ?app_assoc; reflexivity.

(** X7. Each list handler sends the request that [get] sends for the
    full list of its arguments: its own guards change nothing, what
    reaches the URL is decided by the client's truthiness filter alone.
    So an explicit [omit_personal: false] is not sent, and neither is an
    empty [since] or [until]. *)
Theorem list_handlers_query_by_truthiness (p : Props) :
  Forall
    (fun entry =>
       let '(tool, h, endpoint, keys) := entry in
       In (tool, h) (handlers p) /\
       forall a env st,
         requests (snd (h a env st))
         = (requests st
            ++ [Request.mk (TodoistClient.get_url endpoint (pick a keys))
                  "GET"
                  [("Authorization", "Bearer " +:+ accessToken p);
                   ("Accept", "application/json")]
                  None])%list)
    (list_queries p) /\
  (forall a env st,
      truthy (Object.get a "omit_personal") = false ->
      Request.url <$> requests (snd (get_shared_labels p a env st))
      = ((Request.url <$> requests st)
         ++ ["https://api.todoist.com/rest/v2/labels/shared"])%list).
Proof.
  split.
  - unfold list_queries.
    repeat (apply Forall_cons_2; [ split; [ listed | ] | ]);
      [ .. | apply Forall_nil_2 ];
      intros a env st; open_any_handler; rewrite try_catch_ret_snd;
      first
        [ rewrite bind_ret_snd
        | rewrite bind_quiet_requests
            by (intros ?; apply quiet_bind;
                [ apply quiet_tasks_map | intros ?; apply quiet_ret ]) ];
      rewrite (proj2 (get_logs _ _ _ _ _));
      do 3 f_equal; same_query.
  - intros a env st Hfalse.
    unfold get_shared_labels. cbv zeta.
    rewrite try_catch_ret_snd, bind_ret_snd, (proj2 (get_logs _ _ _ _ _)).
    rewrite fmap_app. f_equal. cbn [fmap list_fmap Request.url].
    rewrite get_url_spec, truthy_query_assign_if by reflexivity.
    rewrite defined_and_truthy, Hfalse. reflexivity.
Qed.

(** * The move command on the wire *)

Lemma moveTask_request (this : TodoistClient.t) (taskId : value)
  (destination : Obj) (env : Env) (st : State) :
  requests (snd (TodoistClient.moveTask this taskId destination env st))
  = (requests st
     ++ [Request.mk SYNC_API_URL "POST" (TodoistClient.getHeaders this true)
           (move_body (randomUUID env (drawn st))
              (assign_if (truthy (Object.get destination "parent_id"))
                 (assign_if (truthy (Object.get destination "section_id"))
                    (assign_if (truthy (Object.get destination "project_id"))
                       [("id", taskId)]
                       "project_id" (Object.get destination "project_id"))
                    "section_id" (Object.get destination "section_id"))
                 "parent_id" (Object.get destination "parent_id")))])%list.
Proof.
  unfold TodoistClient.moveTask.
  unfold bind at 1, log_call at 1.
  unfold bind at 1, crypto_randomUUID at 1.
  cbn [calls requests raised drawn].
  match goal with
  | |- context [bind (do_fetch ?r) ?k env ?s] =>
      apply (proj2 (fetch_then_quiet_logs r k env s
                      ltac:(intros x; cbv beta;
                            destruct (negb (Response.ok x));
                            [ auto 10 with footprint | ];
                            apply quiet_bind; [ apply quiet_await | intros ? ];
                            apply quiet_bind; [ apply quiet_member | intros ? ];
                            match goal with
                            | |- quiet (if ?c then _ else _) =>
                                destruct c;
                                [ apply quiet_throw | apply quiet_ret ]
                            end)))
  end.
Qed.

(** X8. When at least one destination is truthy, [move_task] sends one
    POST to the sync endpoint whose single command is [item_move], with
    the uuid of the current rank and with arguments [id] followed by
    exactly the truthy destinations in the order project, section,
    parent; the client is called with those destinations. The second
    truthiness filter, inside the client, changes nothing. *)
Theorem move_task_sends_truthy_destinations (p : Props) (a : Obj)
  (env : Env) (st : State) :
  negb (truthy (Object.get a "project_id"))
  && negb (truthy (Object.get a "section_id"))
  && negb (truthy (Object.get a "parent_id")) = false ->
  calls (snd (move_task p a env st))
  = (calls st
     ++ [CallMoveTask (Object.get a "task_id")
           (List.filter (fun kv => truthy (snd kv))
              (pick a ["project_id"; "section_id"; "parent_id"]))])%list /\
  requests (snd (move_task p a env st))
  = (requests st
     ++ [Request.mk SYNC_API_URL "POST"
           [("Authorization", "Bearer " +:+ accessToken p);
            ("Accept", "application/json");
            ("Content-Type", "application/json")]
           (move_body (randomUUID env (drawn st)) (move_args a))])%list.
Proof.
  intros Hdest. unfold move_task. cbv zeta. rewrite Hdest.
  rewrite try_catch_ret_snd, bind_ret_snd.
  rewrite moveTask_logs, moveTask_request.
  unfold move_args, pick. cbn [map List.filter snd].
  destruct (truthy (Object.get a "project_id")) eqn:E1,
           (truthy (Object.get a "section_id")) eqn:E2,
           (truthy (Object.get a "parent_id")) eqn:E3;
    cbn [assign_if Object.set Object.get String.eqb Ascii.eqb Bool.eqb];
    rewrite ?E1, ?E2, ?E3;
    cbn [assign_if Object.set Object.get String.eqb Ascii.eqb Bool.eqb truthy];
    split; reflexivity.
Qed.

Lemma move_task_to_section_run :
  (Request.body <$>
     requests (snd (move_task sample_props
                      [("task_id", VStr "7"); ("parent_id", VStr "");
                       ("section_id", VStr "3")]
                      (world_json (VObj [])) initial)))
  = [move_body "uuid-0" [("id", VStr "7"); ("section_id", VStr "3")]].
Proof.
  rewrite (proj2 (move_task_sends_truthy_destinations sample_props
                    [("task_id", VStr "7"); ("parent_id", VStr "");
                     ("section_id", VStr "3")]
                    (world_json (VObj [])) initial eq_refl)).
  reflexivity.
Defined.

(** * Bodies of the POST requests *)

Lemma SerializeJSON_object (gap indent : string) (o : Obj) :
  SerializeJSON gap indent (VObj o)
  = let partial :=
      flat_map (fun kv => match SerializeJSON gap (indent +:+ gap) (snd kv) with
                          | Some s =>
                              [QuoteJSONString (fst kv) +:+ ":"
                               +:+ (if String.eqb gap "" then "" else " ")
                               +:+ s]
                          | None => []
                          end) o in
    Some (match partial with
          | [] => "{}"
          | _ =>
              if String.eqb gap "" then "{" +:+ join "," partial +:+ "}"
              else "{" +:+ nl +:+ (indent +:+ gap)
                   +:+ join ("," +:+ nl +:+ (indent +:+ gap)) partial
                   +:+ nl +:+ indent +:+ "}"
          end).
Proof. reflexivity. Qed.

Lemma SerializeJSON_defined_entries (gap indent : string) (o : Obj) :
  SerializeJSON gap indent (VObj (defined_entries o))
  = SerializeJSON gap indent (VObj o).
Proof.
  rewrite !SerializeJSON_object. cbv zeta.
  assert (H : forall f : string * value -> list string,
             (forall kv, value_is_undefined (snd kv) = true -> f kv = []) ->
             flat_map f (defined_entries o) = flat_map f o).
  { intros f Hf. unfold defined_entries.
    induction o as [| kv o IH]; simpl; [ reflexivity | ].
    destruct (value_is_undefined (snd kv)) eqn:E; simpl.
    - rewrite (Hf kv E). exact IH.
    - rewrite IH. reflexivity. }
  rewrite H; [ reflexivity | ].
  intros [k v] E. simpl in E. destruct v; try discriminate E. reflexivity.
Qed.

(** X9. The body [post] sends is the JSON of the entries of [data] whose
    value is not [undefined]: a key passed with the value [undefined]
    never reaches the wire. So [create_project] and [create_section],
    which pass every parameter unguarded, send exactly the parameters
    the caller supplied. *)
Theorem post_body_omits_undefined (this : TodoistClient.t)
  (endpoint : string) (data : Obj) (env : Env) (st : State) :
  requests (snd (TodoistClient.post this endpoint (Some data) env st))
  = (requests st
     ++ [Request.mk (API_BASE_URL +:+ endpoint) "POST"
           (TodoistClient.getHeaders this true)
           (JSON_stringify (VObj (defined_entries data)) 0)])%list /\
  (forall p a,
      Request.body <$> requests (snd (create_project p a env st))
      = ((Request.body <$> requests st)
         ++ [JSON_stringify
               (VObj (defined_entries
                        (pick a ["name"; "description"; "parent_id"; "color";
                                 "is_favorite"; "view_style"]))) 0])%list) /\
  (forall p a,
      Request.body <$> requests (snd (create_section p a env st))
      = ((Request.body <$> requests st)
         ++ [JSON_stringify
               (VObj (defined_entries
                        (pick a ["name"; "project_id"; "order"]))) 0])%list).
Proof.
  assert (Hbody : forall o n,
             JSON_stringify (VObj (defined_entries o)) n
             = JSON_stringify (VObj o) n)
    by (intros; apply SerializeJSON_defined_entries).
  split; [ | split ].
  - rewrite Hbody. apply (post_logs this endpoint (Some data) env st).
  - intros p a. unfold create_project. cbv zeta.
    rewrite try_catch_ret_snd, bind_ret_snd, (proj2 (post_logs _ _ _ _ _)).
    rewrite fmap_app, Hbody. reflexivity.
  - intros p a. unfold create_section. cbv zeta.
    rewrite try_catch_ret_snd, bind_ret_snd, (proj2 (post_logs _ _ _ _ _)).
    rewrite fmap_app, Hbody. reflexivity.
Qed.

(** * Listings that are not lists *)

(** X10. When the listing behind [get_tasks_by_filter] yields anything
    but an array (the [null] of a 204 included), or an array with a
    [null] element, the handler does not answer with an empty list: it
    answers [isError: true] with a text that starts with
    [Error fetching tasks: ]. *)
Theorem get_tasks_by_filter_needs_a_list (p : Props) (a : Obj) (env : Env)
  (st st1 : State) (v : value) :
  TodoistClient.get (TodoistClient.new (accessToken p)) "/tasks"
    (Some [("filter", Object.get a "filter")]) env st = (inr v, st1) ->
  (forall l, v = VArr l -> Exists (fun t => nullish t = true) l) ->
  exists e st',
    get_tasks_by_filter p a env st
    = (inr {| content :=
                [{| type := "text";
                    text := Some ("Error fetching tasks: "
                                  +:+ error_message e) |}];
              isError := Some true |}, st') /\
    raised st' = (raised st1 ++ [e])%list.
Proof.
  intros Hget Hbad. unfold get_tasks_by_filter. cbv zeta.
  assert (Hmap : exists e st',
             tasks_map v format_task env st1 = (inl e, st') /\
             raised st' = (raised st1 ++ [e])%list).
  { pose proof (tidy_tasks_map v env st1) as Ht.
    destruct (tasks_map v format_task env st1) as [[e | r] st'] eqn:E;
      [ eauto | exfalso ].
    unfold tasks_map in E. destruct v; try discriminate E.
    specialize (Hbad l eq_refl).
    destruct (mapM_format_task l env st1) as [[Hall H] | (e & s & H)].
    - apply Exists_exists in Hbad. destruct Hbad as (t & Hin & Ht').
      rewrite Forall_forall in Hall. rewrite (Hall t Hin) in Ht'.
      discriminate Ht'.
    - erewrite bind_inl in E by exact H. discriminate E. }
  destruct Hmap as (e & st' & Hm & Hr).
  exists e, st'. split; [ | exact Hr ].
  erewrite try_catch_inl; [ reflexivity | ].
  erewrite bind_inr by exact Hget.
  eapply bind_inl. exact Hm.
Qed.

Lemma get_tasks_by_filter_no_content_run :
  exists e st',
    get_tasks_by_filter sample_props [("filter", VStr "today")]
      world_no_content initial
    = (inr {| content :=
                [{| type := "text";
                    text := Some ("Error fetching tasks: "
                                  +:+ error_message e) |}];
              isError := Some true |}, st').
Proof.
  destruct (get_tasks_by_filter_needs_a_list sample_props
              [("filter", VStr "today")] world_no_content initial _ VNull
              eq_refl)
    as (e & st' & H & _).
  - intros l Hl. discriminate Hl.
  - exists e, st'. exact H.
Defined.
